(** * Vaultix backend: wallet challenge-response authentication

    A shallow embedding of
      - backend/src/modules/user/user.service.ts        (UserService)
      - backend/src/modules/auth/services/auth.service.ts (AuthService)
      - backend/src/modules/auth/middleware/auth.guard.ts (AuthGuard)
      - backend/src/modules/auth/auth.module.ts          (JwtModule options)
    and of the parts of TypeORM, @nestjs/jwt / jsonwebtoken and stellar-sdk
    these files call.

    Asynchronous methods are modelled as computations in a state-and-exception
    monad over the two database tables.  Requests are handled one after the
    other; a thrown exception leaves every write made before it in place
    (the services open no transaction). *)

From Stdlib Require Import String Ascii List Bool ZArith Lia.
Import ListNotations.
Open Scope Z_scope.
Open Scope string_scope.

(** ** JavaScript values and exceptions *)

(** The exceptions that can leave a service method.  Nest answers 401 to an
    [UnauthorizedException]; an error that is no HTTP exception reaches the
    client as a 500.
    [JsError name message] stands for a plain [Error], a [TypeError], an ORM
    error or a jsonwebtoken error, and for the ThrottlerException of the rate
    limiter, which is answered with a 429. *)
Inductive Exception : Type :=
| UnauthorizedException (message : string)
| JsError (name message : string).

Inductive Outcome (A : Type) : Type :=
| Returned (a : A)
| Thrown (e : Exception).
Arguments Returned {A} a.
Arguments Thrown {A} e.

(** [!s] for a value of type [string | undefined | null]. *)
Definition js_not (v : option string) : bool :=
  match v with
  | None => true
  | Some s => s =? ""
  end.

(** [a || b] for an optional string [a]. *)
Definition js_or (a : option string) (b : string) : string :=
  if js_not a then b else match a with Some s => s | None => b end.

(** ** Entities *)

(** Modelled from the spec: the [User] entity, whose declaration
    (user.entity.ts) is missing from the sources.  The data model gives it an
    opaque unique identifier, a wallet address, an optional pending nonce, an
    active flag and a creation timestamp.  The columns kept here are the ones
    the services read and write; a new row is active, as the end-to-end test
    of /auth/me expects and as the sibling entity below declares for its own
    flag. *)
Module User.
Record t : Type := mk {
  id : string;
  walletAddress : string;
  nonce : option string;        (* NULL or the pending nonce *)
  isActive : bool
}.
End User.

(** refresh-token.entity.ts; the generated [id] and [createdAt] are left out,
    [expiresAt] is the Date as milliseconds since the epoch. *)
Module RefreshToken.
Record t : Type := mk {
  token : string;
  userId : string;
  expiresAt : Z;
  isActive : bool
}.
End RefreshToken.

(** What [findOne] with [relations: ['user']] hands back: the row together
    with the joined user (a left join: the user may be missing). *)
Record LoadedRefreshToken : Type := {
  row : RefreshToken.t;
  user : option User.t
}.

(** [Partial<User>] as the services build it: a field is either given a value
    or is [undefined] (which is also what an absent key reads as). *)
Record PartialUser : Type := {
  p_walletAddress : option string;
  p_nonce : option string
}.

(** The argument of [createRefreshToken]. *)
Record RefreshTokenData : Type := {
  d_token : string;
  d_userId : string;
  d_expiresAt : Z
}.

(** The database: the [users] and [refresh_tokens] tables, in insertion
    order. *)
Record Store : Type := {
  users : list User.t;
  refreshTokens : list RefreshToken.t
}.

Definition setUsers (us : list User.t) (s : Store) : Store :=
  {| users := us; refreshTokens := refreshTokens s |}.

Definition setRefreshTokens (ts : list RefreshToken.t) (s : Store) : Store :=
  {| users := users s; refreshTokens := ts |}.

(** ** The monad of service methods *)

Definition M (A : Type) : Type := Store -> Outcome A * Store.

Definition ret {A} (a : A) : M A := fun s => (Returned a, s).

Definition throw {A} (e : Exception) : M A := fun s => (Thrown e, s).

Definition bind {A B} (m : M A) (k : A -> M B) : M B :=
  fun s =>
    match m s with
    | (Returned a, s') => k a s'
    | (Thrown e, s') => (Thrown e, s')
    end.

(** [try { m } catch (error) { h error }] *)
Definition try_catch {A} (m : M A) (h : Exception -> M A) : M A :=
  fun s =>
    match m s with
    | (Returned a, s') => (Returned a, s')
    | (Thrown e, s') => h e s'
    end.

Declare Scope service_scope.
Delimit Scope service_scope with service.
Notation "x <- m ;; k" := (bind m (fun x => k))
  (at level 61, m at next level, right associativity) : service_scope.
Notation "m ;; k" := (bind m (fun _ => k))
  (at level 61, right associativity) : service_scope.
Open Scope service_scope.

(** ** JSON web tokens *)

(** The claims of a token.  [iat] and [exp] are in seconds, as jsonwebtoken
    writes them; a claim the payload does not carry is [None]. *)
Module JwtPayload.
Record t : Type := mk {
  sub : string;
  walletAddress : string;
  type : option string;
  iat : Z;
  exp : option Z
}.
End JwtPayload.

(** The compact token string, by what a verifier can tell about it: either it
    does not parse as a JWT at all, or it is a well-formed token over
    [payload] whose signature was made with [key]. *)
Inductive Jwt : Type :=
| NotAJwt (raw : string)
| Signed (key : string) (payload : JwtPayload.t).

(** The Authorization header, by what [extractTokenFromHeader] can tell about
    it: ["Bearer "] followed by a token text, or anything else. *)
Inductive AuthorizationHeader : Type :=
| Bearer (token : Jwt)
| OtherScheme (raw : string).

(** The options of [JwtModule.registerAsync]. *)
Record JwtModuleOptions : Type := {
  secret : string;
  expiresIn : option Z            (* signOptions.expiresIn, seconds *)
}.

(** What is signed before jsonwebtoken adds the registered claims. *)
Record AccessClaims : Type := {
  c_sub : string;
  c_walletAddress : string;
  c_type : string
}.

(** [jwtService.sign(payload)] at clock [now] (milliseconds): jsonwebtoken
    stamps [iat], and [exp] only when [expiresIn] is configured. *)
Definition jwtService_sign (opts : JwtModuleOptions) (now : Z)
    (payload : AccessClaims) : Jwt :=
  let iat := now / 1000 in
  Signed (secret opts)
    {| JwtPayload.sub := c_sub payload;
       JwtPayload.walletAddress := c_walletAddress payload;
       JwtPayload.type := Some (c_type payload);
       JwtPayload.iat := iat;
       JwtPayload.exp := option_map (fun d => iat + d) (expiresIn opts) |}.

(** [jwtService.verify(token, { secret })]: the secret given in the call, or
    the module's when that is undefined; jsonwebtoken then rejects a string
    that is no JWT, a signature made with another key, and a token whose
    [exp] is not after the clock. *)
Definition jwtService_verify (opts : JwtModuleOptions) (now : Z)
    (token : Jwt) (callSecret : option string) : Outcome JwtPayload.t :=
  match token with
  | NotAJwt _ => Thrown (JsError "JsonWebTokenError" "jwt malformed")
  | Signed key payload =>
      if negb (key =? js_or callSecret (secret opts))
      then Thrown (JsError "JsonWebTokenError" "invalid signature")
      else match JwtPayload.exp payload with
           | Some e =>
               if (e <=? now / 1000)%Z
               then Thrown (JsError "TokenExpiredError" "jwt expired")
               else Returned payload
           | None => Returned payload
           end
  end.

Section Vaultix.

(** ** What the services are configured with *)

(** [StellarSdk.Keypair.fromPublicKey(publicKey).verify(message, signature)]
    on the message text and the hex text of the signature: [Some b] when the
    SDK returns [b], [None] when [fromPublicKey] or [verify] throws. *)
Variable Keypair_verify :
  forall (publicKey message signatureHex : string), option bool.

(** Whether the [User] entity declares a column the ORM maintains by itself on
    every update ([@UpdateDateColumn] or [@VersionColumn]).  The entity
    declaration is missing from the sources and the data model does not say,
    so both cases are kept. *)
Variable userHasAutoUpdatedColumn : bool.

(** [process.env.JWT_SECRET], which is also what [ConfigService] reads. *)
Variable JWT_SECRET : option string.

(** [d.setDate(d.getDate() + days)] on the Date of timestamp [t], as a
    timestamp again.  The arithmetic is on the local calendar of the server:
    it keeps the wall-clock time of day, so the distance in milliseconds
    depends on the server's time zone and its changes of offset. *)
Variable Date_setDate_plus : forall (t days : Z), Z.

(** auth.module.ts: only [secret] is configured, there are no
    [signOptions]. *)
Definition jwtModuleOptions : JwtModuleOptions :=
  {| secret := js_or JWT_SECRET "your-secret-key-change-in-production";
     expiresIn := None |}.

Definition configService_get_JWT_SECRET : option string := JWT_SECRET.

(** ** TypeORM repositories *)

(** [userRepository.findOne({ where })]: the first row that matches. *)
Definition userRepository_findOne (where_ : User.t -> bool) : M (option User.t) :=
  fun s => (Returned (find where_ (users s)), s).

(** The SET clause of an update is built from the properties of the partial
    entity that are not [undefined]. *)
Definition setClause (userData : PartialUser) (u : User.t) : User.t :=
  {| User.id := User.id u;
     User.walletAddress :=
       match p_walletAddress userData with
       | Some w => w
       | None => User.walletAddress u
       end;
     User.nonce :=
       match p_nonce userData with
       | Some n => Some n
       | None => User.nonce u
       end;
     User.isActive := User.isActive u |}.

Definition noValues (userData : PartialUser) : bool :=
  match p_walletAddress userData, p_nonce userData with
  | None, None => true
  | _, _ => false
  end.

(** [userRepository.update(id, userData)].  TypeORM's update query builder
    skips the properties whose value is [undefined]; the columns it maintains
    itself (update date, version) are added to what is left, and when nothing
    is left to set it throws UpdateValuesMissingError instead of running a
    query. *)
Definition userRepository_update (id : string) (userData : PartialUser) : M unit :=
  fun s =>
    if noValues userData && negb userHasAutoUpdatedColumn
    then (Thrown (JsError "UpdateValuesMissingError"
                    "Cannot perform update query because update values are not defined."), s)
    else (Returned tt,
          setUsers (map (fun u => if User.id u =? id then setClause userData u else u)
                        (users s)) s).

(** [userRepository.save(userRepository.create(userData))]: a new row with a
    generated uuid; [isActive] takes its column default, true. *)
Definition userRepository_save_new (uuid : string) (userData : PartialUser) : M User.t :=
  match p_walletAddress userData with
  | None => throw (JsError "QueryFailedError" "NOT NULL constraint failed: users.walletAddress")
  | Some w =>
      fun s =>
        let u := {| User.id := uuid; User.walletAddress := w;
                    User.nonce := p_nonce userData; User.isActive := true |} in
        (Returned u, setUsers (users s ++ [u]) s)
  end.

(** [refreshTokenRepository.findOne({ where, relations: ['user'] })] *)
Definition refreshTokenRepository_findOne (where_ : RefreshToken.t -> bool)
  : M (option LoadedRefreshToken) :=
  fun s =>
    (Returned
       (option_map
          (fun r => {| row := r;
                       user := find (fun u => User.id u =? RefreshToken.userId r) (users s) |})
          (find where_ (refreshTokens s))),
     s).

(** [refreshTokenRepository.update({ token }, { isActive: false })] on every
    row that matches the criteria; no row matching is not an error. *)
Definition refreshTokenRepository_update_isActive
    (where_ : RefreshToken.t -> bool) (value : bool) : M unit :=
  fun s =>
    (Returned tt,
     setRefreshTokens
       (map (fun r => if where_ r
                      then {| RefreshToken.token := RefreshToken.token r;
                              RefreshToken.userId := RefreshToken.userId r;
                              RefreshToken.expiresAt := RefreshToken.expiresAt r;
                              RefreshToken.isActive := value |}
                      else r)
            (refreshTokens s)) s).

(** [refreshTokenRepository.save(refreshTokenRepository.create(tokenData))];
    [isActive] takes its column default, true. *)
Definition refreshTokenRepository_save_new (tokenData : RefreshTokenData)
  : M RefreshToken.t :=
  fun s =>
    let r := {| RefreshToken.token := d_token tokenData;
                RefreshToken.userId := d_userId tokenData;
                RefreshToken.expiresAt := d_expiresAt tokenData;
                RefreshToken.isActive := true |} in
    (Returned r, setRefreshTokens (refreshTokens s ++ [r]) s).

(** ** UserService (user.service.ts) *)

Definition findByWalletAddress (walletAddress : string) : M (option User.t) :=
  userRepository_findOne (fun u => User.walletAddress u =? walletAddress).

Definition findById (id : string) : M (option User.t) :=
  userRepository_findOne (fun u => (User.id u =? id) && User.isActive u).

Definition create (uuid : string) (userData : PartialUser) : M User.t :=
  userRepository_save_new uuid userData.

Definition update (id : string) (userData : PartialUser) : M User.t :=
  userRepository_update id userData ;;
  user <- findById id ;;
  match user with
  | None => throw (JsError "Error" "User not found")
  | Some user => ret user
  end.

Definition createRefreshToken (tokenData : RefreshTokenData) : M RefreshToken.t :=
  refreshTokenRepository_save_new tokenData.

Definition findRefreshToken (token : string) : M (option LoadedRefreshToken) :=
  refreshTokenRepository_findOne
    (fun r => (RefreshToken.token r =? token) && RefreshToken.isActive r).

Definition invalidateRefreshToken (token : string) : M unit :=
  refreshTokenRepository_update_isActive (fun r => RefreshToken.token r =? token) false.

(** ** AuthService (auth.service.ts) *)

Record Challenge : Type := {
  ch_nonce : string;
  ch_message : string
}.

Record TokenPair : Type := {
  accessToken : Jwt;
  refreshToken : string
}.

Record TokenIdentity : Type := {
  ti_userId : string;
  ti_walletAddress : string
}.

(** The template string of both [generateChallenge] and [verifySignature]. *)
Definition challengeMessage (nonce : string) : string :=
  "Sign this message to authenticate with Vaultix: " ++ nonce.

(** [randomHex16] is [crypto.randomBytes(16).toString('hex')], [uuid] the id
    the database generates should a row be inserted. *)
Definition generateChallenge (randomHex16 uuid : string) (walletAddress : string)
  : M Challenge :=
  let nonce := randomHex16 in
  let message := challengeMessage nonce in
  user <- findByWalletAddress walletAddress ;;
  (match user with
   | None =>
       create uuid {| p_walletAddress := Some walletAddress; p_nonce := Some nonce |}
   | Some user =>
       update (User.id user) {| p_walletAddress := None; p_nonce := Some nonce |}
   end) ;;
  ret {| ch_nonce := nonce; ch_message := message |}.

Definition generateAccessToken (now : Z) (userId walletAddress : string) : Jwt :=
  let payload := {| c_sub := userId; c_walletAddress := walletAddress; c_type := "access" |} in
  jwtService_sign jwtModuleOptions now payload.

(** [randomHex32] is [crypto.randomBytes(32).toString('hex')]. *)
Definition generateRefreshToken (now : Z) (randomHex32 : string) (userId : string)
  : M string :=
  let token := randomHex32 in
  let expiresAt := Date_setDate_plus now 7 in   (* 7 days *)
  createRefreshToken {| d_token := token; d_userId := userId; d_expiresAt := expiresAt |} ;;
  ret token.

Definition verifySignature (now : Z) (randomHex32 : string)
    (walletAddress signature publicKey : string) : M TokenPair :=
  user <- findByWalletAddress walletAddress ;;
  match user with
  | None => throw (UnauthorizedException "Invalid challenge. Please request a new one.")
  | Some user =>
      if js_not (User.nonce user)
      then throw (UnauthorizedException "Invalid challenge. Please request a new one.")
      else
        let message :=
          challengeMessage (match User.nonce user with Some n => n | None => "" end) in
        try_catch
          (match Keypair_verify publicKey message signature with
           | None => throw (JsError "Error" "invalid public key or signature")
           | Some isValid =>
               if negb isValid
               then throw (UnauthorizedException "Invalid signature")
               else ret tt
           end)
          (fun error => throw (UnauthorizedException "Signature verification failed")) ;;
        (if negb (publicKey =? walletAddress)
         then throw (UnauthorizedException "Public key does not match wallet address")
         else ret tt) ;;
        (* update(user.id, { nonce: undefined }) *)
        update (User.id user) {| p_walletAddress := None; p_nonce := None |} ;;
        let accessToken := generateAccessToken now (User.id user) walletAddress in
        refreshToken <- generateRefreshToken now randomHex32 (User.id user) ;;
        ret {| accessToken := accessToken; refreshToken := refreshToken |}
  end.

Definition refreshAccessToken (now : Z) (randomHex32 : string) (refreshToken : string)
  : M TokenPair :=
  token <- findRefreshToken refreshToken ;;
  match token with
  | None => throw (UnauthorizedException "Invalid or expired refresh token")
  | Some token =>
      if (RefreshToken.expiresAt (row token) <? now)%Z
      then throw (UnauthorizedException "Invalid or expired refresh token")
      else
        invalidateRefreshToken refreshToken ;;
        match user token with
        | None => throw (JsError "TypeError" "Cannot read properties of null (reading 'id')")
        | Some tokenUser =>
            let newAccessToken :=
              generateAccessToken now (User.id tokenUser) (User.walletAddress tokenUser) in
            newRefreshToken <- generateRefreshToken now randomHex32 (User.id tokenUser) ;;
            ret {| accessToken := newAccessToken; refreshToken := newRefreshToken |}
        end
  end.

Definition logout (refreshToken : string) : M unit :=
  invalidateRefreshToken refreshToken.

Definition getCurrentUser (userId : string) : M User.t :=
  user <- findById userId ;;
  match user with
  | None => throw (UnauthorizedException "User not found")
  | Some user => ret user
  end.

(** [payload.type !== 'access'] *)
Definition typeIsNotAccess (payload : JwtPayload.t) : bool :=
  match JwtPayload.type payload with
  | Some t => negb (t =? "access")
  | None => true
  end.

(** [validateToken] touches no table; it still runs in [M] so that its
    try/catch is the one of the other methods. *)
Definition validateToken (now : Z) (token : Jwt) : M TokenIdentity :=
  try_catch
    (payload <- (fun s => (jwtService_verify jwtModuleOptions now token
                             configService_get_JWT_SECRET, s)) ;;
     if typeIsNotAccess payload
     then throw (UnauthorizedException "Invalid token type")
     else ret {| ti_userId := JwtPayload.sub payload;
                 ti_walletAddress := JwtPayload.walletAddress payload |})
    (fun error => throw (UnauthorizedException "Invalid token")).

(** ** AuthGuard (auth.guard.ts) *)

(** [extractTokenFromHeader]: the text after ["Bearer "], or undefined. *)
Definition extractTokenFromHeader (authorization : option AuthorizationHeader)
  : option Jwt :=
  match authorization with
  | Some (Bearer token) => Some token
  | _ => None
  end.

(** [canActivate]; [Returned identity] stands for returning true with
    [request.user] set to [identity]. *)
Definition canActivate (now : Z) (authorization : option AuthorizationHeader)
  : M TokenIdentity :=
  let token := extractTokenFromHeader authorization in
  match token with
  | None => throw (UnauthorizedException "Access token is required")
  | Some (NotAJwt "") => throw (UnauthorizedException "Access token is required")
  | Some token =>
      try_catch
        (validateToken now token)
        (fun error => throw (UnauthorizedException "Invalid or expired token"))
  end.

(** ** Requests, one after the other *)

(** A call on the service together with what the environment supplies for it
    (clock, random bytes, generated id). *)
Inductive Request : Type :=
| ChallengeRequest (randomHex16 uuid walletAddress : string)
| VerifyRequest (now : Z) (randomHex32 walletAddress signature publicKey : string)
| RefreshRequest (now : Z) (randomHex32 refreshToken : string)
| LogoutRequest (refreshToken : string)
| CurrentUserRequest (userId : string)
| ValidateRequest (now : Z) (token : Jwt).

(** The store a request leaves behind, whether it returned or threw. *)
Definition handle (r : Request) (s : Store) : Store :=
  match r with
  | ChallengeRequest rnd uuid w => snd (generateChallenge rnd uuid w s)
  | VerifyRequest now rnd w sig pk => snd (verifySignature now rnd w sig pk s)
  | RefreshRequest now rnd t => snd (refreshAccessToken now rnd t s)
  | LogoutRequest t => snd (logout t s)
  | CurrentUserRequest i => snd (getCurrentUser i s)
  | ValidateRequest now t => snd (validateToken now t s)
  end.

Definition handleAll (rs : list Request) (s : Store) : Store :=
  fold_left (fun s r => handle r s) rs s.

(** The random value a request would store as a new refresh token. *)
Definition randomTokenOf (r : Request) : option string :=
  match r with
  | VerifyRequest _ rnd _ _ _ => Some rnd
  | RefreshRequest _ rnd _ => Some rnd
  | _ => None
  end.

Definition drawsToken (t : string) (r : Request) : bool :=
  match randomTokenOf r with
  | Some rnd => rnd =? t
  | None => false
  end.

(** ** Vocabulary of the properties *)

(** The nonce a wallet has pending: the one of the row [findByWalletAddress]
    returns, unless it is NULL or empty. *)
Definition pendingNonce (s : Store) (walletAddress : string) : option string :=
  match find (fun u => User.walletAddress u =? walletAddress) (users s) with
  | Some u => if js_not (User.nonce u) then None else User.nonce u
  | None => None
  end.

(** Whether the SDK verifies [signature] over the challenge message of
    [nonce] under [publicKey]; a throwing SDK call counts as no. *)
Definition signatureOver (publicKey nonce signature : string) : bool :=
  match Keypair_verify publicKey (challengeMessage nonce) signature with
  | Some true => true
  | _ => false
  end.

(** The three conditions under which a challenge response is accepted. *)
Definition accepted (s : Store) (walletAddress signature publicKey : string) : bool :=
  match pendingNonce s walletAddress with
  | Some n =>
      match Keypair_verify publicKey (challengeMessage n) signature with
      | Some true => publicKey =? walletAddress
      | _ => false
      end
  | None => false
  end.

(** Whether [update(user.id, { nonce: undefined })] goes through for the user
    of a wallet: the ORM accepts the update and [findById], which filters on
    [isActive], finds the user again. *)
Definition nonceUpdateGoesThrough (s : Store) (walletAddress : string) : bool :=
  match find (fun u => User.walletAddress u =? walletAddress) (users s) with
  | Some u =>
      userHasAutoUpdatedColumn &&
      existsb (fun v => (User.id v =? User.id u) && User.isActive v) (users s)
  | None => false
  end.

(** The active row [findRefreshToken] returns for a token value. *)
Definition activeRow (s : Store) (token : string) : option RefreshToken.t :=
  find (fun r => (RefreshToken.token r =? token) && RefreshToken.isActive r)
       (refreshTokens s).

(** No row with this token value is active. *)
Definition spent (s : Store) (token : string) : Prop :=
  forall r, In r (refreshTokens s) -> RefreshToken.token r = token ->
            RefreshToken.isActive r = false.

Definition isUnauthorized {A} (o : Outcome A) : bool :=
  match o with
  | Thrown (UnauthorizedException _) => true
  | _ => false
  end.

Definition isReturned {A} (o : Outcome A) : bool :=
  match o with
  | Returned _ => true
  | _ => false
  end.

(** The secret the server signs and verifies with. *)
Definition serverSecret : string := secret jwtModuleOptions.

(** jsonwebtoken's expiry test at clock [now] (milliseconds). *)
Definition expired (now : Z) (payload : JwtPayload.t) : bool :=
  match JwtPayload.exp payload with
  | Some e => (e <=? now / 1000)%Z
  | None => false
  end.

(** The nonce column of the row [findByWalletAddress] returns. *)
Definition storedNonce (s : Store) (walletAddress : string) : option string :=
  match find (fun u => User.walletAddress u =? walletAddress) (users s) with
  | Some u => User.nonce u
  | None => None
  end.

(** ** Sample data used in the examples *)

(** The address of a sample account, the Ed25519 key pair of secret seed
    SCNXLQWNOK4CYDNGIEPPQT6OBRFMRIXYPPB5OR56NWV4WDKX7E4EKLV5, and the address
    of a second account. *)
Definition walletG : string :=
  "GAX4HVASTFRHUBSVMLINUAMDAIN5577M7U3BRM6EBDV3SOTVNKEAWJXW".

Definition walletOther : string :=
  "GBXGQJWVLWOYHFLVTKWV5FGHA3LNYY2JQKM7OAJAUEQFU6LPCSEFVXON".

Definition nonce1 : string := "a1b2c3d4e5f6789012345678901234ab".
Definition nonce2 : string := "00112233445566778899aabbccddeeff".

Definition token1 : string :=
  "5f4dcc3b5aa765d61d8327deb882cf995f4dcc3b5aa765d61d8327deb882cf99".
Definition token2 : string :=
  "9c2a7d0e41b8563fa0a1b2c3d4e5f6079c2a7d0e41b8563fa0a1b2c3d4e5f607".

(** The hex of the Ed25519 signature the sample account makes over the
    challenge message of [nonce1], which is what [Keypair.sign] computes. *)
Definition signature1 : string :=
  "c12200e0dd61f6415f4afd6054c1e5afbe9fc88f8f48884f9db39cbf57babcea"
  ++ "f551d87be23303ded6fa82207c86c8a70d75b86c9822347eb7e5768f4201470b".

(** The verifier the examples run with.  It answers as the SDK does on what
    the examples present to it: under the sample account's key it accepts
    [signature1] over the message of [nonce1] and refuses every other
    message or signature; it is not asked about other keys and refuses
    them. *)
Definition sampleKeypair_verify (publicKey message signatureHex : string) : option bool :=
  if publicKey =? walletG
  then Some ((message =? challengeMessage nonce1) && (signatureHex =? signature1))
  else None.

(** The calendar of a server that runs in UTC. *)
Definition utcCalendar (t days : Z) : Z := t + days * 86400000.

Definition emptyStore : Store := {| users := []; refreshTokens := [] |}.

(** One active user holding a pending nonce. *)
Definition storePending : Store :=
  {| users := [ {| User.id := "u-1"; User.walletAddress := walletG;
                   User.nonce := Some nonce1; User.isActive := true |} ];
     refreshTokens := [] |}.

(** The same user, deactivated. *)
Definition storeDeactivated : Store :=
  {| users := [ {| User.id := "u-1"; User.walletAddress := walletG;
                   User.nonce := Some nonce1; User.isActive := false |} ];
     refreshTokens := [] |}.

(** An active user with one refresh token that expires at clock 1000. *)
Definition storeWithToken : Store :=
  {| users := [ {| User.id := "u-1"; User.walletAddress := walletG;
                   User.nonce := None; User.isActive := true |} ];
     refreshTokens := [ {| RefreshToken.token := token1; RefreshToken.userId := "u-1";
                           RefreshToken.expiresAt := 1000; RefreshToken.isActive := true |} ] |}.

(** ** AuthController (auth.controller.ts) *)

(** What GET /auth/me answers ([createdAt] is not modelled). *)
Record UserView : Type := {
  v_id : string;
  v_walletAddress : string;
  v_isActive : bool
}.

(** The controller class carries [@UseGuards(ThrottlerGuard)], registered in
    auth.module.ts with a limit of 10 requests per 60000 ms; it runs ahead of
    the guard of the method and answers 429 with a ThrottlerException.
    Whether the caller is over the limit depends on the requests of the last
    minute and enters as [overLimit]. *)
Definition ThrottlerGuard_canActivate (overLimit : bool) : M unit :=
  if overLimit
  then throw (JsError "ThrottlerException" "ThrottlerException: Too Many Requests")
  else ret tt.

(** [getCurrentUser] of the controller, behind the class's throttler and
    [@UseGuards(AuthGuard)]: the guards run first and [request.user] is
    handed to the method. *)
Definition AuthController_getCurrentUser (overLimit : bool) (now : Z)
    (authorization : option AuthorizationHeader) : M UserView :=
  ThrottlerGuard_canActivate overLimit ;;
  reqUser <- canActivate now authorization ;;
  user <- getCurrentUser (ti_userId reqUser) ;;
  ret {| v_id := User.id user;
         v_walletAddress := User.walletAddress user;
         v_isActive := User.isActive user |}.

(** [logout] of the controller, behind the same guards; the method does not
    look at [request.user]. *)
Definition AuthController_logout (overLimit : bool) (now : Z)
    (authorization : option AuthorizationHeader) (refreshToken : string) : M string :=
  ThrottlerGuard_canActivate overLimit ;;
  canActivate now authorization ;;
  logout refreshToken ;;
  ret "Successfully logged out".

(** ** The Authorization header as text *)

(** [extractTokenFromHeader] on the header text itself:
    [authHeader && authHeader.startsWith('Bearer ')], then [substring(7)]. *)
Definition extractTokenFromHeaderText (authorization : option string) : option string :=
  match authorization with
  | Some authHeader =>
      if negb (authHeader =? "") && String.prefix "Bearer " authHeader
      then Some (String.substring 7 (String.length authHeader - 7)%nat authHeader)
      else None
  | None => None
  end.

(** ** Request validation (auth.dto.ts) *)

(** The character class [[A-Z0-9]]. *)
Definition isUpperOrDigit (c : ascii) : bool :=
  let n := nat_of_ascii c in
  ((65 <=? n) && (n <=? 90) || (48 <=? n) && (n <=? 57))%nat.

Fixpoint allUpperOrDigit (s : string) : bool :=
  match s with
  | EmptyString => true
  | String c rest => isUpperOrDigit c && allUpperOrDigit rest
  end.

(** [@Matches(/^G[A-Z0-9]{55}$/)] *)
Definition matchesWalletPattern (value : string) : bool :=
  match value with
  | String "G" rest => (String.length rest =? 55)%nat && allUpperOrDigit rest
  | _ => false
  end.

(** [@IsNotEmpty()] *)
Definition isNotEmpty (value : string) : bool := negb (value =? "").

(** [@Length(min, max)] *)
Definition lengthWithin (min max : nat) (value : string) : bool :=
  ((min <=? String.length value) && (String.length value <=? max))%nat.

(** The decorators of [walletAddress] in [ChallengeDto] and of
    [walletAddress] and [publicKey] in [VerifyDto], on a string value. *)
Definition validWalletAddress (value : string) : bool :=
  isNotEmpty value && lengthWithin 1 56 value && matchesWalletPattern value.

(** ** More vocabulary *)

(** The columns of a user no service method writes after insertion. *)
Definition userCore (u : User.t) : string * string * bool :=
  (User.id u, User.walletAddress u, User.isActive u).

(** The columns of a refresh token no service method writes after
    insertion. *)
Definition tokenCore (r : RefreshToken.t) : string * string * Z :=
  (RefreshToken.token r, RefreshToken.userId r, RefreshToken.expiresAt r).

(** How the refresh token table may change: row by row the token value, the
    owner and the expiry stay, a row is active only if it was active, and new
    rows come at the end. *)
Inductive tokensEvolve : list RefreshToken.t -> list RefreshToken.t -> Prop :=
| evolve_new (extra : list RefreshToken.t) : tokensEvolve [] extra
| evolve_row (r r' : RefreshToken.t) (l l' : list RefreshToken.t) :
    tokenCore r' = tokenCore r ->
    (RefreshToken.isActive r' = true -> RefreshToken.isActive r = true) ->
    tokensEvolve l l' ->
    tokensEvolve (r :: l) (r' :: l').

(** The row a new refresh token is stored as. *)
Definition issuedRow (now : Z) (token userId : string) : RefreshToken.t :=
  {| RefreshToken.token := token; RefreshToken.userId := userId;
     RefreshToken.expiresAt := Date_setDate_plus now 7; RefreshToken.isActive := true |}.

(** * Properties *)

(** ** Store bookkeeping *)

Lemma setUsers_same (s : Store) : setUsers (users s) s = s.
Proof. destruct s; reflexivity. Qed.

Lemma setClause_noValues (d : PartialUser) (u : User.t) :
  noValues d = true -> setClause d u = u.
Proof.
  destruct d as [w n], u as [i a c b]; unfold noValues, setClause; simpl.
  destruct w; destruct n; intro H; try discriminate H; reflexivity.
Qed.

Lemma map_touch_noValues (d : PartialUser) (i : string) (us : list User.t) :
  noValues d = true ->
  map (fun u => if User.id u =? i then setClause d u else u) us = us.
Proof.
  intro H; induction us as [|u us IH]; simpl; [reflexivity|].
  rewrite IH. destruct (User.id u =? i); [rewrite setClause_noValues by exact H|]; reflexivity.
Qed.

(** An update whose values are all undefined writes no column of the model:
    it either is refused or leaves the tables as they are. *)
Lemma userRepository_update_noValues (i : string) (d : PartialUser) (s : Store) :
  noValues d = true -> snd (userRepository_update i d s) = s.
Proof.
  intro H; unfold userRepository_update; rewrite H; simpl.
  destruct userHasAutoUpdatedColumn; simpl; [|reflexivity].
  rewrite map_touch_noValues by exact H. apply setUsers_same.
Qed.

Lemma find_existsb {A} (f : A -> bool) (l : list A) :
  existsb f l = match find f l with Some _ => true | None => false end.
Proof.
  induction l as [|x l IH]; simpl; [reflexivity|].
  destruct (f x); [reflexivity|exact IH].
Qed.

Ltac service :=
  unfold bind, try_catch, throw, ret; simpl.

(** What [verifySignature] does on a store, path by path. *)
Lemma verifySignature_paths (now : Z) (rnd w sig pk : string) (s : Store) :
  verifySignature now rnd w sig pk s =
  if accepted s w sig pk then
    match find (fun u => User.walletAddress u =? w) (users s) with
    | None => (Thrown (UnauthorizedException "Invalid challenge. Please request a new one."), s)
    | Some u =>
        if userHasAutoUpdatedColumn then
          if existsb (fun v => (User.id v =? User.id u) && User.isActive v) (users s)
          then (Returned {| accessToken := generateAccessToken now (User.id u) w;
                            refreshToken := rnd |},
                setRefreshTokens
                  (refreshTokens s ++
                   [ {| RefreshToken.token := rnd; RefreshToken.userId := User.id u;
                        RefreshToken.expiresAt := Date_setDate_plus now 7;
                        RefreshToken.isActive := true |} ]) s)
          else (Thrown (JsError "Error" "User not found"), s)
        else (Thrown (JsError "UpdateValuesMissingError"
                        "Cannot perform update query because update values are not defined."), s)
    end
  else
    (Thrown (UnauthorizedException
               match pendingNonce s w with
               | None => "Invalid challenge. Please request a new one."
               | Some n =>
                   match Keypair_verify pk (challengeMessage n) sig with
                   | Some true => "Public key does not match wallet address"
                   | _ => "Signature verification failed"
                   end
               end), s).
Proof.
  unfold verifySignature, accepted, pendingNonce, findByWalletAddress, userRepository_findOne.
  service.
  destruct (find (fun u => User.walletAddress u =? w) (users s)) as [u|]; [|reflexivity].
  destruct (User.nonce u) as [n|] eqn:En; simpl; [|reflexivity].
  destruct (n =? "") eqn:Ee; simpl; [reflexivity|].
  destruct (Keypair_verify pk (challengeMessage n) sig) as [[|]|]; simpl; try reflexivity.
  destruct (pk =? w); simpl; [|reflexivity].
  unfold update, userRepository_update, findById, userRepository_findOne; service.
  destruct userHasAutoUpdatedColumn; simpl; [|reflexivity].
  rewrite map_touch_noValues by reflexivity.
  rewrite find_existsb.
  destruct (find (fun v => (User.id v =? User.id u) && User.isActive v) (users s));
    unfold generateRefreshToken, createRefreshToken, refreshTokenRepository_save_new; service;
    rewrite ?setUsers_same; reflexivity.
Qed.

(** ** verifySignature *)

Lemma verifySignature_isReturned (now : Z) (rnd w sig pk : string) (s : Store) :
  isReturned (fst (verifySignature now rnd w sig pk s))
  = accepted s w sig pk && nonceUpdateGoesThrough s w.
Proof.
  rewrite verifySignature_paths. unfold nonceUpdateGoesThrough.
  destruct (accepted s w sig pk) eqn:Ha; simpl; [|reflexivity].
  destruct (find _ (users s)) as [u|] eqn:Hu.
  - destruct userHasAutoUpdatedColumn; simpl; [|reflexivity].
    destruct (existsb _ (users s)); reflexivity.
  - reflexivity.
Qed.

Lemma verifySignature_isUnauthorized (now : Z) (rnd w sig pk : string) (s : Store) :
  isUnauthorized (fst (verifySignature now rnd w sig pk s))
  = negb (accepted s w sig pk).
Proof.
  rewrite verifySignature_paths.
  destruct (accepted s w sig pk) eqn:Ha; simpl; [|reflexivity].
  destruct (find _ (users s)) as [u|] eqn:Hu.
  - destruct userHasAutoUpdatedColumn; simpl; [|reflexivity].
    destruct (existsb _ (users s)); reflexivity.
  - unfold accepted, pendingNonce in Ha. rewrite Hu in Ha. discriminate Ha.
Qed.

(** [verifySignature] writes nothing to the users table, whatever its
    outcome: the partial entity of its update carries no defined value. *)
Lemma verifySignature_keeps_users (now : Z) (rnd w sig pk : string) (s : Store) :
  users (snd (verifySignature now rnd w sig pk s)) = users s.
Proof.
  rewrite verifySignature_paths.
  destruct (accepted s w sig pk); [|reflexivity].
  destruct (find _ (users s)); [|reflexivity].
  destruct userHasAutoUpdatedColumn; [|reflexivity].
  destruct (existsb _ (users s)); reflexivity.
Qed.

(** C9. When [verifySignature] does not return tokens, whatever the reason
    (no user, no nonce, signature refused or undecodable, key different from
    the wallet, update refused), the store is the one it started from: the
    nonce of every user is as it was and no refresh token row was written. *)
Theorem verifySignature_failure_keeps_store (now : Z) (rnd w sig pk : string) (s : Store) :
  isReturned (fst (verifySignature now rnd w sig pk s)) = false ->
  snd (verifySignature now rnd w sig pk s) = s.
Proof.
  rewrite verifySignature_paths.
  destruct (accepted s w sig pk); [|reflexivity].
  destruct (find _ (users s)); [|reflexivity].
  destruct userHasAutoUpdatedColumn; [|reflexivity].
  destruct (existsb _ (users s)); simpl; [discriminate|reflexivity].
Qed.

Lemma accepted_same_users (s s' : Store) (w sig pk : string) :
  users s' = users s -> accepted s' w sig pk = accepted s w sig pk.
Proof. intro H. unfold accepted, pendingNonce. rewrite H. reflexivity. Qed.

Lemma nonceUpdateGoesThrough_same_users (s s' : Store) (w : string) :
  users s' = users s -> nonceUpdateGoesThrough s' w = nonceUpdateGoesThrough s w.
Proof. intro H. unfold nonceUpdateGoesThrough. rewrite H. reflexivity. Qed.

(** C1.  The nonce is not cleared.  Take a response [verifySignature]
    accepts: the wallet has a pending nonce, the signature verifies over its
    message and the key is the wallet address.  After the call the stored
    nonce is what it was, and a second call with the same signature is not
    answered with Unauthorized: it returns tokens again if the first call
    returned tokens, and fails the way the first one did otherwise.  This
    holds whatever the SDK's verifier and whether or not the entity has an
    ORM-maintained column. *)
Theorem verifySignature_replay_accepted (now now' : Z) (rnd rnd' w sig pk : string)
    (s : Store) :
  accepted s w sig pk = true ->
  storedNonce (snd (verifySignature now rnd w sig pk s)) w = storedNonce s w
  /\ isUnauthorized
       (fst (verifySignature now' rnd' w sig pk
               (snd (verifySignature now rnd w sig pk s)))) = false
  /\ isReturned
       (fst (verifySignature now' rnd' w sig pk
               (snd (verifySignature now rnd w sig pk s))))
     = isReturned (fst (verifySignature now rnd w sig pk s)).
Proof.
  intro Ha.
  pose proof (verifySignature_keeps_users now rnd w sig pk s) as Hus.
  split; [unfold storedNonce; rewrite Hus; reflexivity|].
  rewrite verifySignature_isUnauthorized, !verifySignature_isReturned.
  rewrite (accepted_same_users s _ w sig pk Hus).
  rewrite (nonceUpdateGoesThrough_same_users s _ w Hus).
  rewrite Ha. split; reflexivity.
Qed.

(** C3.  A deactivated user is answered with neither tokens nor
    Unauthorized.  When the three conditions of acceptance hold (pending
    nonce, signature verified over its message, key equal to the wallet
    address) and no row with the user's id is active, [verifySignature] does
    not return and the exception it throws is not an
    UnauthorizedException. *)
Theorem verifySignature_deactivated_user (now : Z) (rnd w sig pk : string)
    (s : Store) (u : User.t) :
  accepted s w sig pk = true ->
  find (fun u => User.walletAddress u =? w) (users s) = Some u ->
  existsb (fun v => (User.id v =? User.id u) && User.isActive v) (users s) = false ->
  isReturned (fst (verifySignature now rnd w sig pk s)) = false
  /\ isUnauthorized (fst (verifySignature now rnd w sig pk s)) = false.
Proof.
  intros Ha Hu He. rewrite verifySignature_paths, Ha, Hu, He.
  destruct userHasAutoUpdatedColumn; split; reflexivity.
Qed.

(** With primary-key ids, the update of an accepted response goes through
    exactly when the ORM accepts it and the wallet's user is active. *)
Lemma nonceUpdateGoesThrough_active (s : Store) (w : string) (u : User.t) :
  NoDup (map User.id (users s)) ->
  find (fun u => User.walletAddress u =? w) (users s) = Some u ->
  nonceUpdateGoesThrough s w = userHasAutoUpdatedColumn && User.isActive u.
Proof.
  intros Hnd Hu. unfold nonceUpdateGoesThrough. rewrite Hu. f_equal.
  apply find_some in Hu. destruct Hu as [Hin _].
  induction (users s) as [|v l IH]; [contradiction|].
  simpl in Hnd. inversion Hnd as [|? ? Hnotin Hnd']; subst.
  destruct Hin as [->|Hin]; simpl.
  - rewrite String.eqb_refl; simpl.
    destruct (User.isActive u); [reflexivity|]. simpl.
    apply not_true_is_false. intro Hex. apply existsb_exists in Hex.
    destruct Hex as [x [Hx Hm]]. apply andb_prop in Hm. destruct Hm as [Hm _].
    apply String.eqb_eq in Hm. apply Hnotin. rewrite <- Hm. now apply in_map.
  - assert (Hne : (User.id v =? User.id u) = false).
    { apply String.eqb_neq. intro He. apply Hnotin. rewrite He. now apply in_map. }
    rewrite Hne. simpl. now apply IH.
Qed.

(** ** Access tokens *)

Lemma serverSecret_verifies :
  (serverSecret =? js_or configService_get_JWT_SECRET (secret jwtModuleOptions)) = true.
Proof.
  unfold serverSecret, configService_get_JWT_SECRET, jwtModuleOptions; simpl.
  unfold js_or. destruct (js_not JWT_SECRET) eqn:E.
  - apply String.eqb_refl.
  - destruct JWT_SECRET; [apply String.eqb_refl|discriminate E].
Qed.

(** What [validateToken] answers, token by token. *)
Lemma validateToken_paths (now : Z) (token : Jwt) (s : Store) :
  validateToken now token s =
  (match token with
   | NotAJwt _ => Thrown (UnauthorizedException "Invalid token")
   | Signed key payload =>
       if (key =? serverSecret) && negb (expired now payload)
          && negb (typeIsNotAccess payload)
       then Returned {| ti_userId := JwtPayload.sub payload;
                        ti_walletAddress := JwtPayload.walletAddress payload |}
       else Thrown (UnauthorizedException "Invalid token")
   end, s).
Proof.
  unfold validateToken, jwtService_verify, expired; service.
  destruct token as [raw|key payload]; [reflexivity|].
  assert (Hk : js_or configService_get_JWT_SECRET (secret jwtModuleOptions) = serverSecret).
  { symmetry. apply String.eqb_eq. apply serverSecret_verifies. }
  unfold jwtModuleOptions in Hk. simpl in Hk. rewrite Hk.
  destruct (key =? serverSecret); simpl; [|reflexivity].
  destruct (JwtPayload.exp payload) as [e|]; simpl.
  - destruct (e <=? now / 1000)%Z; simpl; [reflexivity|].
    destruct (typeIsNotAccess payload); reflexivity.
  - destruct (typeIsNotAccess payload); reflexivity.
Qed.

(** The token [generateAccessToken] mints carries no expiry claim, and
    [validateToken] accepts it at every later clock. *)
Lemma generateAccessToken_has_no_exp (now later : Z) (userId w : string) (s : Store) :
  (exists payload,
      generateAccessToken now userId w = Signed serverSecret payload
      /\ JwtPayload.exp payload = None)
  /\ validateToken later (generateAccessToken now userId w) s
     = (Returned {| ti_userId := userId; ti_walletAddress := w |}, s).
Proof.
  split.
  - eexists; split; reflexivity.
  - rewrite validateToken_paths. unfold generateAccessToken, jwtService_sign.
    fold serverSecret. rewrite String.eqb_refl. reflexivity.
Qed.

Lemma typeIsNotAccess_false (payload : JwtPayload.t) :
  typeIsNotAccess payload = false <-> JwtPayload.type payload = Some "access".
Proof.
  unfold typeIsNotAccess. destruct (JwtPayload.type payload) as [t|].
  - rewrite negb_false_iff, String.eqb_eq. split; [now intros ->|now intros [= ->]].
  - split; discriminate.
Qed.

(** C6. [validateToken] never alters the store.  A token whose type claim is
    missing or is not "access" is refused, whatever its key and expiry, so
    also when it is signed with the server secret and unexpired.  Every
    refusal is one and the same exception,
    UnauthorizedException("Invalid token"): for a text that is no JWT, a
    signature made with another key, an expired token and a wrong type
    alike.  The identity is returned exactly for a token of type "access"
    that is signed with the server secret and unexpired. *)
Theorem validateToken_single_failure (now : Z) (token : Jwt) (s : Store) :
  snd (validateToken now token s) = s
  /\ (forall key payload,
        token = Signed key payload ->
        JwtPayload.type payload <> Some "access" ->
        fst (validateToken now token s) = Thrown (UnauthorizedException "Invalid token"))
  /\ (isReturned (fst (validateToken now token s)) = false ->
      fst (validateToken now token s) = Thrown (UnauthorizedException "Invalid token"))
  /\ fst (validateToken now token s) =
     match token with
     | NotAJwt _ => Thrown (UnauthorizedException "Invalid token")
     | Signed key payload =>
         match JwtPayload.type payload with
         | Some t =>
             if (t =? "access") && (key =? serverSecret) && negb (expired now payload)
             then Returned {| ti_userId := JwtPayload.sub payload;
                              ti_walletAddress := JwtPayload.walletAddress payload |}
             else Thrown (UnauthorizedException "Invalid token")
         | None => Thrown (UnauthorizedException "Invalid token")
         end
     end.
Proof.
  rewrite validateToken_paths. simpl fst; simpl snd.
  split; [reflexivity|]. split; [|split].
  - intros key payload -> Ht.
    destruct (typeIsNotAccess payload) eqn:E.
    + rewrite andb_false_r. reflexivity.
    + apply typeIsNotAccess_false in E. contradiction.
  - destruct token as [raw|key payload]; [reflexivity|].
    destruct ((key =? serverSecret) && negb (expired now payload)
              && negb (typeIsNotAccess payload)); [discriminate|reflexivity].
  - destruct token as [raw|key payload]; [reflexivity|].
    unfold typeIsNotAccess. destruct (JwtPayload.type payload) as [t|].
    + rewrite negb_involutive.
      destruct (t =? "access"), (key =? serverSecret), (expired now payload); reflexivity.
    + rewrite andb_false_r. reflexivity.
Qed.

(** The guard answers every failure of [validateToken] with one exception of
    its own. *)
Lemma canActivate_single_failure (now : Z) (token : Jwt) (s : Store) :
  token <> NotAJwt "" ->
  fst (canActivate now (Some (Bearer token)) s) = fst (validateToken now token s)
  \/ fst (canActivate now (Some (Bearer token)) s)
     = Thrown (UnauthorizedException "Invalid or expired token").
Proof.
  intro Hne.
  assert (Hc : canActivate now (Some (Bearer token)) s =
               try_catch (validateToken now token)
                 (fun _ => throw (UnauthorizedException "Invalid or expired token")) s).
  { unfold canActivate, extractTokenFromHeader.
    destruct token as [raw|key payload]; [|reflexivity].
    destruct raw; [contradiction Hne; reflexivity|reflexivity]. }
  rewrite Hc. unfold try_catch, throw.
  destruct (validateToken now token s) as [[a|e] s']; simpl; [left|right]; reflexivity.
Qed.

(** ** getCurrentUser *)

Lemma find_none_iff {A} (f : A -> bool) (l : list A) :
  find f l = None <-> forall x, In x l -> f x = false.
Proof.
  split.
  - intros H x Hx. now apply (find_none f l H).
  - intro H. induction l as [|y l IH]; simpl; [reflexivity|].
    rewrite (H y (or_introl eq_refl)). apply IH. intros x Hx. apply H. now right.
Qed.

(** C10. When no row with the given id is active, be it that there is no
    such row or that its active flag is false, [getCurrentUser] throws the
    same UnauthorizedException("User not found") and leaves the store
    alone. *)
Theorem getCurrentUser_inactive_or_absent (userId : string) (s : Store) :
  (forall u, In u (users s) -> User.id u = userId -> User.isActive u = false) ->
  getCurrentUser userId s = (Thrown (UnauthorizedException "User not found"), s).
Proof.
  intro H. unfold getCurrentUser, findById, userRepository_findOne; service.
  assert (Hf : find (fun u => (User.id u =? userId) && User.isActive u) (users s) = None).
  { apply find_none_iff. intros u Hu.
    destruct (User.id u =? userId) eqn:E; [|reflexivity]. simpl.
    apply H; [exact Hu|]. now apply String.eqb_eq. }
  rewrite Hf. reflexivity.
Qed.

(** ** Refresh tokens *)

Lemma activeRow_None_spent (s : Store) (t : string) :
  activeRow s t = None <-> spent s t.
Proof.
  unfold activeRow, spent. rewrite find_none_iff. split.
  - intros H r Hr Ht. specialize (H r Hr). apply String.eqb_eq in Ht.
    rewrite Ht in H. exact H.
  - intros H r Hr. destruct (RefreshToken.token r =? t) eqn:E; [|reflexivity].
    simpl. apply H; [exact Hr|]. now apply String.eqb_eq.
Qed.

(** What [refreshAccessToken] does on a store, path by path. *)
Lemma refreshAccessToken_paths (now : Z) (rnd t : string) (s : Store) :
  refreshAccessToken now rnd t s =
  match activeRow s t with
  | None => (Thrown (UnauthorizedException "Invalid or expired refresh token"), s)
  | Some r =>
      if (RefreshToken.expiresAt r <? now)%Z
      then (Thrown (UnauthorizedException "Invalid or expired refresh token"), s)
      else
        let s1 := snd (invalidateRefreshToken t s) in
        match find (fun u => User.id u =? RefreshToken.userId r) (users s) with
        | None =>
            (Thrown (JsError "TypeError" "Cannot read properties of null (reading 'id')"), s1)
        | Some u =>
            (Returned {| accessToken :=
                           generateAccessToken now (User.id u) (User.walletAddress u);
                         refreshToken := rnd |},
             setRefreshTokens
               (refreshTokens s1 ++
                [ {| RefreshToken.token := rnd; RefreshToken.userId := User.id u;
                     RefreshToken.expiresAt := Date_setDate_plus now 7;
                     RefreshToken.isActive := true |} ]) s1)
        end
  end.
Proof.
  unfold refreshAccessToken, findRefreshToken, refreshTokenRepository_findOne, activeRow.
  service.
  destruct (find _ (refreshTokens s)) as [r|]; simpl; [|reflexivity].
  destruct (RefreshToken.expiresAt r <? now)%Z; [reflexivity|].
  destruct (find _ (users s)); reflexivity.
Qed.

Lemma spent_invalidate (t : string) (s : Store) :
  spent (snd (invalidateRefreshToken t s)) t.
Proof.
  unfold spent, invalidateRefreshToken, refreshTokenRepository_update_isActive; simpl.
  intros r Hr Ht. apply in_map_iff in Hr. destruct Hr as [r0 [Hr0 _]].
  destruct (RefreshToken.token r0 =? t) eqn:E.
  - subst r. reflexivity.
  - subst r. apply String.eqb_neq in E. contradiction.
Qed.

Lemma spent_invalidate_other (t0 t : string) (s : Store) :
  spent s t -> spent (snd (invalidateRefreshToken t0 s)) t.
Proof.
  unfold spent, invalidateRefreshToken, refreshTokenRepository_update_isActive; simpl.
  intros H r Hr Ht. apply in_map_iff in Hr. destruct Hr as [r0 [Hr0 Hin]].
  destruct (RefreshToken.token r0 =? t0).
  - subst r. reflexivity.
  - subst r. now apply H.
Qed.

Lemma spent_append (t : string) (r : RefreshToken.t) (s : Store) :
  spent s t -> RefreshToken.token r <> t ->
  spent (setRefreshTokens (refreshTokens s ++ [r]) s) t.
Proof.
  unfold spent; simpl. intros H Hne r' Hr' Ht.
  apply in_app_or in Hr'. destruct Hr' as [Hr'|[->|[]]].
  - now apply H.
  - contradiction.
Qed.

Lemma spent_rejected (now : Z) (rnd t : string) (s : Store) :
  spent s t ->
  refreshAccessToken now rnd t s
  = (Thrown (UnauthorizedException "Invalid or expired refresh token"), s).
Proof.
  intro H. rewrite refreshAccessToken_paths.
  apply activeRow_None_spent in H. rewrite H. reflexivity.
Qed.

(** The presented token is invalidated before anything is minted: once the
    lookup and the expiry test are passed, no row with the presented value is
    active afterwards, whether the rest of the call returns or throws. *)
Lemma refreshAccessToken_invalidates_first (now : Z) (rnd t : string) (s : Store) :
  isUnauthorized (fst (refreshAccessToken now rnd t s)) = false ->
  (rnd =? t) = false ->
  spent (snd (refreshAccessToken now rnd t s)) t.
Proof.
  rewrite refreshAccessToken_paths. intros Hu Hne.
  destruct (activeRow s t) as [r|]; [|discriminate Hu].
  destruct (RefreshToken.expiresAt r <? now)%Z; [discriminate Hu|].
  cbv zeta. destruct (find _ (users s)); simpl.
  - apply spent_append; [apply spent_invalidate|]. simpl. now apply String.eqb_neq.
  - apply spent_invalidate.
Qed.

Lemma generateChallenge_keeps_refreshTokens (rnd uuid w : string) (s : Store) :
  refreshTokens (snd (generateChallenge rnd uuid w s)) = refreshTokens s.
Proof.
  unfold generateChallenge, findByWalletAddress, userRepository_findOne, create,
    userRepository_save_new, update, userRepository_update, findById; service.
  destruct (find _ (users s)); simpl; [|reflexivity].
  destruct (find _ (map _ (users s))); reflexivity.
Qed.

(** A request that draws another random value than [t] for its new refresh
    token cannot bring [t] back. *)
Lemma handle_keeps_spent (t : string) (r : Request) (s : Store) :
  drawsToken t r = false -> spent s t -> spent (handle r s) t.
Proof.
  intros Hd H. destruct r as [rnd uuid w|now rnd w sig pk|now rnd t0| t0 | i | now tok];
    unfold drawsToken in Hd; simpl in Hd; simpl.
  - unfold spent. rewrite generateChallenge_keeps_refreshTokens. exact H.
  - rewrite verifySignature_paths.
    destruct (accepted s w sig pk); [|exact H].
    destruct (find _ (users s)); [|exact H].
    destruct userHasAutoUpdatedColumn; [|exact H].
    destruct (existsb _ (users s)); [|exact H].
    simpl. apply spent_append; [exact H|]. simpl. now apply String.eqb_neq.
  - rewrite refreshAccessToken_paths.
    destruct (activeRow s t0) as [r0|]; [|exact H].
    destruct (RefreshToken.expiresAt r0 <? now)%Z; [exact H|].
    cbv zeta. destruct (find _ (users s)); simpl.
    + apply spent_append; [now apply spent_invalidate_other|].
      simpl. now apply String.eqb_neq.
    + now apply spent_invalidate_other.
  - now apply spent_invalidate_other.
  - unfold getCurrentUser, findById, userRepository_findOne; service.
    destruct (find _ (users s)); exact H.
  - rewrite validateToken_paths. exact H.
Qed.

Lemma handleAll_keeps_spent (t : string) (rs : list Request) (s : Store) :
  forallb (fun r => negb (drawsToken t r)) rs = true ->
  spent s t -> spent (handleAll rs s) t.
Proof.
  unfold handleAll. revert s. induction rs as [|r rs IH]; intros s Hrs H; simpl.
  - exact H.
  - simpl in Hrs. apply andb_prop in Hrs. destruct Hrs as [Hr Hrs].
    apply IH; [exact Hrs|]. apply handle_keeps_spent; [|exact H].
    now apply negb_true_iff.
Qed.

(** C4. After a [refreshAccessToken] call that returned tokens for [t], no row
    with value [t] is active, and [t] is refused with Unauthorized by every
    later [refreshAccessToken] call, whatever requests are served in between.
    The random values drawn for new refresh tokens, in the call itself and in
    the requests in between, are taken to differ from [t]. *)
Theorem refreshAccessToken_single_use (now now' : Z) (rnd rnd' t : string)
    (rs : list Request) (s : Store) :
  isReturned (fst (refreshAccessToken now rnd t s)) = true ->
  (rnd =? t) = false ->
  forallb (fun r => negb (drawsToken t r)) rs = true ->
  spent (snd (refreshAccessToken now rnd t s)) t
  /\ fst (refreshAccessToken now' rnd' t
            (handleAll rs (snd (refreshAccessToken now rnd t s))))
     = Thrown (UnauthorizedException "Invalid or expired refresh token").
Proof.
  intros Hok Hne Hrs.
  assert (Hs : spent (snd (refreshAccessToken now rnd t s)) t).
  { apply refreshAccessToken_invalidates_first; [|exact Hne].
    destruct (fst (refreshAccessToken now rnd t s)); [reflexivity|discriminate Hok]. }
  split; [exact Hs|].
  rewrite spent_rejected; [reflexivity|].
  now apply handleAll_keeps_spent.
Qed.

(** C5, as amended.  [refreshAccessToken] throws Unauthorized exactly when no
    active row carries the presented value (the token is unknown or inactive)
    or the expiry of the active row lies strictly before the clock; a token
    whose expiry equals the clock is not refused. *)
Theorem refreshAccessToken_rejects (now : Z) (rnd t : string) (s : Store) :
  isUnauthorized (fst (refreshAccessToken now rnd t s)) =
  match activeRow s t with
  | None => true
  | Some r => (RefreshToken.expiresAt r <? now)%Z
  end.
Proof.
  rewrite refreshAccessToken_paths.
  destruct (activeRow s t) as [r|]; [|reflexivity].
  destruct (RefreshToken.expiresAt r <? now)%Z; [reflexivity|].
  cbv zeta. destruct (find _ (users s)); reflexivity.
Qed.

(** C8. [logout] returns normally for every token value, known or not, active
    or not; afterwards no row with that value is active, so [findRefreshToken]
    finds nothing; and a second [logout] changes nothing more. *)
Theorem logout_idempotent (t : string) (s : Store) :
  fst (logout t s) = Returned tt
  /\ spent (snd (logout t s)) t
  /\ fst (findRefreshToken t (snd (logout t s))) = Returned None
  /\ logout t (snd (logout t s)) = (Returned tt, snd (logout t s)).
Proof.
  unfold logout. split; [reflexivity|]. split; [apply spent_invalidate|]. split.
  - pose proof (spent_invalidate t s) as H. apply activeRow_None_spent in H.
    unfold findRefreshToken, refreshTokenRepository_findOne. cbn [fst].
    unfold activeRow in H. rewrite H. reflexivity.
  - unfold invalidateRefreshToken, refreshTokenRepository_update_isActive; simpl.
    f_equal. unfold setRefreshTokens; simpl. f_equal.
    rewrite map_map. apply map_ext. intro r.
    destruct (RefreshToken.token r =? t) eqn:E; simpl; rewrite E; reflexivity.
Qed.

(** ** generateChallenge *)

(** The users table after [generateChallenge], whether it returned or the
    re-read of an inactive user made [update] throw: the nonce is written
    before the re-read. *)
Lemma generateChallenge_users (rnd uuid w : string) (s : Store) :
  users (snd (generateChallenge rnd uuid w s)) =
  match find (fun u => User.walletAddress u =? w) (users s) with
  | Some u =>
      map (fun v => if User.id v =? User.id u
                    then setClause {| p_walletAddress := None; p_nonce := Some rnd |} v
                    else v) (users s)
  | None =>
      (users s ++ [ {| User.id := uuid; User.walletAddress := w;
                       User.nonce := Some rnd; User.isActive := true |} ])%list
  end.
Proof.
  unfold generateChallenge, findByWalletAddress, userRepository_findOne, create,
    userRepository_save_new, update, userRepository_update, findById; service.
  destruct (find _ (users s)); simpl; [|reflexivity].
  destruct (find _ (map _ (users s))); reflexivity.
Qed.

Lemma find_app_none {A} (f : A -> bool) (l : list A) (x : A) :
  find f l = None -> find f (l ++ [x]) = if f x then Some x else None.
Proof.
  induction l as [|y l IH]; simpl; [reflexivity|].
  destruct (f y); [discriminate|exact IH].
Qed.

Lemma find_map_same {A} (f : A -> bool) (g : A -> A) (l : list A) :
  (forall x, f (g x) = f x) -> find f (map g l) = option_map g (find f l).
Proof.
  intro H. induction l as [|y l IH]; simpl; [reflexivity|].
  rewrite H. destruct (f y); [reflexivity|exact IH].
Qed.

(** [generateChallenge] leaves its nonce as the stored one, whatever was
    stored before. *)
Lemma generateChallenge_storedNonce (rnd uuid w : string) (s : Store) :
  storedNonce (snd (generateChallenge rnd uuid w s)) w = Some rnd.
Proof.
  unfold storedNonce. rewrite generateChallenge_users.
  destruct (find (fun u => User.walletAddress u =? w) (users s)) as [u|] eqn:Hu.
  - rewrite find_map_same.
    + rewrite Hu. simpl. rewrite String.eqb_refl. reflexivity.
    + intro v. destruct (User.id v =? User.id u); reflexivity.
  - rewrite find_app_none by exact Hu. simpl. rewrite String.eqb_refl. reflexivity.
Qed.

Lemma pendingNonce_storedNonce (s : Store) (w n : string) :
  pendingNonce s w = Some n -> storedNonce s w = Some n.
Proof.
  unfold pendingNonce, storedNonce.
  destruct (find _ (users s)) as [u|]; [|discriminate].
  destruct (js_not (User.nonce u)); [discriminate|]. trivial.
Qed.

(** C7. After two [generateChallenge] calls for a wallet the stored nonce is
    the second one, the first being overwritten; and [verifySignature] then
    throws Unauthorized for every signature that does not verify over the
    second challenge message, as is the case of a signature made over the
    first one. *)
Theorem generateChallenge_overwrites (rnd1 uuid1 rnd2 uuid2 w : string) (s : Store)
    (now : Z) (rnd sig pk : string) :
  signatureOver pk rnd2 sig = false ->
  let s1 := snd (generateChallenge rnd1 uuid1 w s) in
  let s2 := snd (generateChallenge rnd2 uuid2 w s1) in
  storedNonce s1 w = Some rnd1
  /\ storedNonce s2 w = Some rnd2
  /\ isUnauthorized (fst (verifySignature now rnd w sig pk s2)) = true.
Proof.
  intros Hsig s1 s2.
  split; [apply generateChallenge_storedNonce|].
  split; [apply generateChallenge_storedNonce|].
  rewrite verifySignature_isUnauthorized.
  apply negb_true_iff. unfold accepted.
  destruct (pendingNonce s2 w) as [n|] eqn:Hn; [|reflexivity].
  apply pendingNonce_storedNonce in Hn.
  unfold s2 in Hn. rewrite generateChallenge_storedNonce in Hn.
  injection Hn as <-.
  unfold signatureOver in Hsig.
  destruct (Keypair_verify pk (challengeMessage rnd2) sig) as [[|]|];
    [discriminate Hsig|reflexivity|reflexivity].
Qed.

(** * Further properties *)

(** ** Refresh: when it succeeds, and what a refusal leaves behind *)

(** X1. [refreshAccessToken] returns tokens exactly when an active row carries
    the presented value, its expiry is not before the clock, and a user row
    with the owner's id exists; the owner's active flag is not consulted. *)
Theorem refreshAccessToken_returns (now : Z) (rnd t : string) (s : Store) :
  isReturned (fst (refreshAccessToken now rnd t s)) =
  match activeRow s t with
  | Some r =>
      negb (RefreshToken.expiresAt r <? now)%Z
      && existsb (fun u => User.id u =? RefreshToken.userId r) (users s)
  | None => false
  end.
Proof.
  rewrite refreshAccessToken_paths.
  destruct (activeRow s t) as [r|]; [|reflexivity].
  destruct (RefreshToken.expiresAt r <? now)%Z; [reflexivity|].
  cbv zeta. rewrite find_existsb.
  destruct (find _ (users s)); reflexivity.
Qed.

(** X2. A refresh that is refused with Unauthorized writes nothing: an expired
    token is not invalidated by being presented. *)
Theorem refreshAccessToken_refusal_keeps_store (now : Z) (rnd t : string) (s : Store) :
  isUnauthorized (fst (refreshAccessToken now rnd t s)) = true ->
  snd (refreshAccessToken now rnd t s) = s.
Proof.
  rewrite refreshAccessToken_paths.
  destruct (activeRow s t) as [r|]; [|reflexivity].
  destruct (RefreshToken.expiresAt r <? now)%Z; [reflexivity|].
  cbv zeta. destruct (find _ (users s)); simpl; discriminate.
Qed.

Lemma find_app_skip {A} (f : A -> bool) (l : list A) (x : A) :
  f x = false -> find f (l ++ [x]) = find f l.
Proof.
  intro H. induction l as [|y l IH]; simpl.
  - rewrite H. reflexivity.
  - destruct (f y); [reflexivity|exact IH].
Qed.

(** A freshly stored row is the one [findRefreshToken] returns for its value,
    and it is accepted up to its expiry. *)
Lemma issuedRow_usable (now now' : Z) (rnd rnd' uid : string) (s : Store) :
  spent s rnd ->
  existsb (fun u => User.id u =? uid) (users s) = true ->
  now' <= Date_setDate_plus now 7 ->
  let s1 := setRefreshTokens (refreshTokens s ++ [issuedRow now rnd uid]) s in
  activeRow s1 rnd = Some (issuedRow now rnd uid)
  /\ isReturned (fst (refreshAccessToken now' rnd' rnd s1)) = true.
Proof.
  intros Hs Hu Hle s1.
  assert (Ha : activeRow s1 rnd = Some (issuedRow now rnd uid)).
  { apply activeRow_None_spent in Hs. unfold activeRow in *. simpl.
    rewrite find_app_none by exact Hs. simpl. rewrite String.eqb_refl. reflexivity. }
  split; [exact Ha|].
  rewrite refreshAccessToken_paths. rewrite Ha. simpl RefreshToken.expiresAt.
  assert (Hlt : (Date_setDate_plus now 7 <? now')%Z = false)
    by (apply Z.ltb_ge; exact Hle).
  rewrite Hlt. cbv zeta. simpl RefreshToken.userId.
  assert (Hf : find (fun u => User.id u =? uid) (users s1) <> None).
  { simpl. rewrite find_existsb in Hu.
    destruct (find _ (users s)); [discriminate|discriminate Hu]. }
  destruct (find _ (users s1)); [reflexivity|contradiction Hf; reflexivity].
Qed.

(** X3. [generateRefreshToken] returns the random value it was given and stores
    it as an active row whose expiry is the issue date moved seven days on in
    the server's local calendar; if that value was not the value of an active
    row and the owner exists, the new token is accepted by
    [refreshAccessToken] at every clock up to that expiry. *)
Theorem generateRefreshToken_usable (now now' : Z) (rnd rnd' uid : string) (s : Store) :
  spent s rnd ->
  existsb (fun u => User.id u =? uid) (users s) = true ->
  now' <= Date_setDate_plus now 7 ->
  fst (generateRefreshToken now rnd uid s) = Returned rnd
  /\ activeRow (snd (generateRefreshToken now rnd uid s)) rnd = Some (issuedRow now rnd uid)
  /\ isReturned (fst (refreshAccessToken now' rnd' rnd
                        (snd (generateRefreshToken now rnd uid s)))) = true.
Proof.
  intros Hs Hu Hle. split; [reflexivity|].
  exact (issuedRow_usable now now' rnd rnd' uid s Hs Hu Hle).
Qed.

(** X4. The refresh token a successful [verifySignature] returns can be
    exchanged at every clock up to its expiry, the issue date moved seven
    days on in the server's local calendar, provided the random value drawn
    for it was not already the value of an active row. *)
Theorem verifySignature_then_refresh (now now' : Z) (rnd rnd' w sig pk : string)
    (s : Store) (pair : TokenPair) :
  fst (verifySignature now rnd w sig pk s) = Returned pair ->
  spent s rnd ->
  now' <= Date_setDate_plus now 7 ->
  refreshToken pair = rnd
  /\ isReturned (fst (refreshAccessToken now' rnd' (refreshToken pair)
                        (snd (verifySignature now rnd w sig pk s)))) = true.
Proof.
  rewrite verifySignature_paths. intros Hr Hs Hle.
  destruct (accepted s w sig pk); [|discriminate Hr].
  destruct (find _ (users s)) as [u|] eqn:Hu; [|discriminate Hr].
  destruct userHasAutoUpdatedColumn; [|discriminate Hr].
  destruct (existsb _ (users s)) eqn:He; [|discriminate Hr].
  simpl in Hr. injection Hr as <-. simpl. split; [reflexivity|].
  apply (issuedRow_usable now now' rnd rnd' (User.id u) s Hs); [|exact Hle].
  apply existsb_exists. apply find_some in Hu. destruct Hu as [Hin _].
  exists u. split; [exact Hin|apply String.eqb_refl].
Qed.

(** X5. Rotation goes on: the refresh token a successful [refreshAccessToken]
    returns can itself be exchanged at every clock up to its expiry, the
    issue date moved seven days on in the server's local calendar, under the
    same proviso on the random value. *)
Theorem refreshAccessToken_then_refresh (now now' : Z) (rnd rnd' t : string)
    (s : Store) (pair : TokenPair) :
  fst (refreshAccessToken now rnd t s) = Returned pair ->
  spent s rnd ->
  now' <= Date_setDate_plus now 7 ->
  refreshToken pair = rnd
  /\ isReturned (fst (refreshAccessToken now' rnd' (refreshToken pair)
                        (snd (refreshAccessToken now rnd t s)))) = true.
Proof.
  rewrite refreshAccessToken_paths. intros Hr Hs Hle.
  destruct (activeRow s t) as [r|]; [|discriminate Hr].
  destruct (RefreshToken.expiresAt r <? now)%Z; [discriminate Hr|].
  cbv zeta in *. destruct (find _ (users s)) as [u|] eqn:Hu; [|discriminate Hr].
  simpl in Hr. injection Hr as <-. simpl fst; simpl snd. split; [reflexivity|].
  apply (issuedRow_usable now now' rnd rnd' (User.id u)
           (snd (invalidateRefreshToken t s))); [| |exact Hle].
  - now apply spent_invalidate_other.
  - simpl. apply existsb_exists. apply find_some in Hu. destruct Hu as [Hin _].
    exists u. split; [exact Hin|apply String.eqb_refl].
Qed.

(** X6. The access token a successful [refreshAccessToken] returns is accepted
    by [validateToken] at every later clock and names the owner recorded on
    the presented refresh token. *)
Theorem refreshAccessToken_keeps_identity (now later : Z) (rnd t : string)
    (s s' : Store) (pair : TokenPair) :
  fst (refreshAccessToken now rnd t s) = Returned pair ->
  exists r identity,
    activeRow s t = Some r
    /\ fst (validateToken later (accessToken pair) s') = Returned identity
    /\ ti_userId identity = RefreshToken.userId r.
Proof.
  rewrite refreshAccessToken_paths. intro Hr.
  destruct (activeRow s t) as [r|]; [|discriminate Hr].
  destruct (RefreshToken.expiresAt r <? now)%Z; [discriminate Hr|].
  cbv zeta in *. destruct (find _ (users s)) as [u|] eqn:Hu; [|discriminate Hr].
  simpl in Hr. injection Hr as <-. simpl accessToken.
  exists r. eexists. split; [reflexivity|].
  destruct (generateAccessToken_has_no_exp now later (User.id u) (User.walletAddress u) s')
    as [_ Hv].
  rewrite Hv. split; [reflexivity|]. simpl.
  apply find_some in Hu. destruct Hu as [_ He]. now apply String.eqb_eq.
Qed.

(** X7. After [logout] the token is refused by [refreshAccessToken], also after
    other requests, as long as none of them draws the same value again. *)
Theorem logout_then_refresh (now : Z) (rnd t : string) (rs : list Request) (s : Store) :
  forallb (fun r => negb (drawsToken t r)) rs = true ->
  refreshAccessToken now rnd t (handleAll rs (snd (logout t s)))
  = (Thrown (UnauthorizedException "Invalid or expired refresh token"),
     handleAll rs (snd (logout t s))).
Proof.
  intro Hrs. apply spent_rejected. apply handleAll_keeps_spent; [exact Hrs|].
  apply spent_invalidate.
Qed.

(** ** Challenges: outcome, login, isolation *)

Lemma existsb_map_same {A} (f : A -> bool) (g : A -> A) (l : list A) :
  (forall x, f (g x) = f x) -> existsb f (map g l) = existsb f l.
Proof.
  intro H. induction l as [|y l IH]; simpl; [reflexivity|].
  rewrite H, IH. reflexivity.
Qed.

(** The outcome of [generateChallenge], by whether the wallet is known. *)
Lemma generateChallenge_result (rnd uuid w : string) (s : Store) :
  fst (generateChallenge rnd uuid w s) =
  match find (fun u => User.walletAddress u =? w) (users s) with
  | None => Returned {| ch_nonce := rnd; ch_message := challengeMessage rnd |}
  | Some u =>
      if existsb (fun v => (User.id v =? User.id u) && User.isActive v) (users s)
      then Returned {| ch_nonce := rnd; ch_message := challengeMessage rnd |}
      else Thrown (JsError "Error" "User not found")
  end.
Proof.
  unfold generateChallenge, findByWalletAddress, userRepository_findOne, create,
    userRepository_save_new, update, userRepository_update, findById; service.
  destruct (find _ (users s)) as [u|]; simpl; [|reflexivity].
  rewrite <- (existsb_map_same
                (fun v => (User.id v =? User.id u) && User.isActive v)
                (fun v => if User.id v =? User.id u
                          then setClause {| p_walletAddress := None; p_nonce := Some rnd |} v
                          else v) (users s)).
  - rewrite find_existsb. destruct (find _ (map _ (users s))); reflexivity.
  - intro v. destruct (User.id v =? User.id u) eqn:E; simpl; rewrite ?E; reflexivity.
Qed.

(** X8. [generateChallenge] returns the nonce and its message when the wallet is
    new or its user is active.  For a deactivated user it fails with the
    plain "User not found" error of [update], never with Unauthorized, and
    the new nonce has been stored all the same. *)
Theorem generateChallenge_outcome (rnd uuid w : string) (s : Store) :
  isReturned (fst (generateChallenge rnd uuid w s)) =
    match find (fun u => User.walletAddress u =? w) (users s) with
    | None => true
    | Some u => existsb (fun v => (User.id v =? User.id u) && User.isActive v) (users s)
    end
  /\ isUnauthorized (fst (generateChallenge rnd uuid w s)) = false
  /\ storedNonce (snd (generateChallenge rnd uuid w s)) w = Some rnd.
Proof.
  rewrite generateChallenge_result.
  split; [|split; [|apply generateChallenge_storedNonce]].
  - destruct (find _ (users s)); [|reflexivity]. destruct (existsb _ (users s)); reflexivity.
  - destruct (find _ (users s)); [|reflexivity]. destruct (existsb _ (users s)); reflexivity.
Qed.

(** X9. Login goes through: when [generateChallenge] returned a non-empty nonce
    and the ORM accepts the update, a signature that verifies over the
    returned message under the wallet's own key makes [verifySignature]
    return tokens. *)
Theorem generateChallenge_then_verify (now : Z) (rnd uuid rnd' w sig : string)
    (s : Store) (c : Challenge) :
  userHasAutoUpdatedColumn = true ->
  (rnd =? "") = false ->
  fst (generateChallenge rnd uuid w s) = Returned c ->
  Keypair_verify w (ch_message c) sig = Some true ->
  isReturned (fst (verifySignature now rnd' w sig w (snd (generateChallenge rnd uuid w s))))
  = true.
Proof.
  intros Hauto Hne Hc Hsig.
  rewrite verifySignature_isReturned.
  pose proof (generateChallenge_storedNonce rnd uuid w s) as Hn.
  pose proof (generateChallenge_users rnd uuid w s) as Hus.
  rewrite generateChallenge_result in Hc.
  unfold accepted, pendingNonce, nonceUpdateGoesThrough, storedNonce in *.
  rewrite Hauto.
  destruct (find (fun u => User.walletAddress u =? w)
                 (users (snd (generateChallenge rnd uuid w s)))) as [u1|] eqn:Hu1;
    [|discriminate Hn].
  rewrite Hn. simpl js_not. rewrite Hne.
  assert (Hm : ch_message c = challengeMessage rnd).
  { destruct (find _ (users s)); [destruct (existsb _ (users s))|];
      try discriminate Hc; injection Hc as <-; reflexivity. }
  rewrite Hm in Hsig. rewrite Hsig, String.eqb_refl. simpl.
  rewrite Hus in Hu1 |- *.
  destruct (find (fun u => User.walletAddress u =? w) (users s)) as [u|] eqn:Hu.
  - destruct (existsb _ (users s)) eqn:He; [|discriminate Hc].
    rewrite find_map_same in Hu1
      by (intro v; destruct (User.id v =? User.id u); reflexivity).
    rewrite Hu in Hu1. simpl in Hu1. rewrite String.eqb_refl in Hu1.
    injection Hu1 as <-. simpl User.id.
    rewrite existsb_map_same; [exact He|].
    intro v. destruct (User.id v =? User.id u) eqn:E; simpl; rewrite ?E; reflexivity.
  - rewrite find_app_none in Hu1 by exact Hu. simpl in Hu1.
    rewrite String.eqb_refl in Hu1. injection Hu1 as <-.
    rewrite existsb_app. simpl. rewrite String.eqb_refl. simpl.
    apply orb_true_r.
Qed.

Lemma NoDup_id_inj (l : list User.t) (u v : User.t) :
  NoDup (map User.id l) -> In u l -> In v l -> User.id u = User.id v -> u = v.
Proof.
  induction l as [|x l IH]; intros Hnd Hu Hv He; [contradiction|].
  simpl in Hnd. inversion Hnd as [|? ? Hnotin Hnd']; subst.
  destruct Hu as [->|Hu], Hv as [->|Hv].
  - reflexivity.
  - exfalso. apply Hnotin. rewrite He. now apply in_map.
  - exfalso. apply Hnotin. rewrite <- He. now apply in_map.
  - now apply IH.
Qed.

(** X10. With primary-key ids, a challenge for one wallet leaves the user row of
    every other wallet, and so its pending nonce, as it was. *)
Theorem generateChallenge_other_wallet (rnd uuid w w' : string) (s : Store) :
  NoDup (map User.id (users s)) ->
  (w' =? w) = false ->
  find (fun u => User.walletAddress u =? w') (users (snd (generateChallenge rnd uuid w s)))
  = find (fun u => User.walletAddress u =? w') (users s).
Proof.
  intros Hnd Hne. rewrite generateChallenge_users.
  destruct (find (fun u => User.walletAddress u =? w) (users s)) as [u|] eqn:Hu.
  - rewrite find_map_same
      by (intro v; destruct (User.id v =? User.id u); reflexivity).
    destruct (find (fun u0 => User.walletAddress u0 =? w') (users s)) as [v|] eqn:Hv;
      [|reflexivity].
    simpl. destruct (User.id v =? User.id u) eqn:Hid; [|reflexivity].
    exfalso. apply String.eqb_eq in Hid.
    apply find_some in Hu. destruct Hu as [Huin Huw].
    apply find_some in Hv. destruct Hv as [Hvin Hvw].
    assert (v = u) by (now apply (NoDup_id_inj (users s))). subst v.
    apply String.eqb_eq in Huw. apply String.eqb_eq in Hvw.
    rewrite Huw in Hvw. subst w'. rewrite String.eqb_refl in Hne. discriminate Hne.
  - apply find_app_skip. simpl. rewrite String.eqb_sym. exact Hne.
Qed.

(** ** What no request does to the tables *)

Lemma refreshAccessToken_keeps_users (now : Z) (rnd t : string) (s : Store) :
  users (snd (refreshAccessToken now rnd t s)) = users s.
Proof.
  rewrite refreshAccessToken_paths.
  destruct (activeRow s t) as [r|]; [|reflexivity].
  destruct (RefreshToken.expiresAt r <? now)%Z; [reflexivity|].
  cbv zeta. destruct (find _ (users s)); reflexivity.
Qed.

Lemma handle_users (r : Request) (s : Store) :
  users (handle r s) = users s
  \/ exists rnd uuid w, r = ChallengeRequest rnd uuid w.
Proof.
  destruct r as [rnd uuid w|now rnd w sig pk|now rnd t0| t0 | i | now tok]; simpl.
  - right. eauto.
  - left. apply verifySignature_keeps_users.
  - left. apply refreshAccessToken_keeps_users.
  - left. reflexivity.
  - left. unfold getCurrentUser, findById, userRepository_findOne; service.
    destruct (find _ (users s)); reflexivity.
  - left. rewrite validateToken_paths. reflexivity.
Qed.

Lemma generateChallenge_userCore (rnd uuid w : string) (s : Store) :
  exists extra,
    map userCore (users (snd (generateChallenge rnd uuid w s)))
    = (map userCore (users s) ++ extra)%list.
Proof.
  rewrite generateChallenge_users.
  destruct (find _ (users s)) as [u|].
  - exists []. rewrite app_nil_r, map_map. apply map_ext.
    intro v. destruct (User.id v =? User.id u); reflexivity.
  - eexists. rewrite map_app. reflexivity.
Qed.

(** X11. No sequence of requests deletes a user or changes the id, the wallet
    address or the active flag of one: these columns of the users table only
    grow at the end. *)
Theorem users_only_grow (rs : list Request) (s : Store) :
  exists extra,
    map userCore (users (handleAll rs s)) = (map userCore (users s) ++ extra)%list.
Proof.
  unfold handleAll. revert s. induction rs as [|r rs IH]; intro s; simpl.
  - exists []. now rewrite app_nil_r.
  - destruct (IH (handle r s)) as [extra2 H2]. rewrite H2.
    destruct (handle_users r s) as [Hsame|[rnd [uuid [w ->]]]].
    + rewrite Hsame. eauto.
    + simpl. destruct (generateChallenge_userCore rnd uuid w s) as [extra1 H1].
      rewrite H1. exists (extra1 ++ extra2)%list. now rewrite app_assoc.
Qed.

(** X12. No sequence of requests gives a wallet a second user: if wallet
    addresses are unique in the users table they stay unique. *)
Theorem wallets_stay_unique (rs : list Request) (s : Store) :
  NoDup (map User.walletAddress (users s)) ->
  NoDup (map User.walletAddress (users (handleAll rs s))).
Proof.
  unfold handleAll. revert s. induction rs as [|r rs IH]; intros s H; simpl; [exact H|].
  apply IH.
  destruct (handle_users r s) as [Hsame|[rnd [uuid [w ->]]]]; [now rewrite Hsame|].
  simpl. rewrite generateChallenge_users.
  destruct (find (fun u => User.walletAddress u =? w) (users s)) as [u|] eqn:Hu.
  - rewrite map_map.
    erewrite map_ext; [exact H|].
    intro v. destruct (User.id v =? User.id u); reflexivity.
  - rewrite map_app. simpl. apply NoDup_app; [exact H|repeat constructor; intros []|].
    intros a Ha [<-|[]].
    apply in_map_iff in Ha. destruct Ha as [v [Hv Hin]].
    pose proof (proj1 (find_none_iff _ _) Hu v Hin) as Hf. simpl in Hf.
    rewrite Hv, String.eqb_refl in Hf. discriminate Hf.
Qed.

Lemma tokensEvolve_refl (l : list RefreshToken.t) : tokensEvolve l l.
Proof. induction l; constructor; auto. Qed.

Lemma tokensEvolve_trans (l1 l2 l3 : list RefreshToken.t) :
  tokensEvolve l1 l2 -> tokensEvolve l2 l3 -> tokensEvolve l1 l3.
Proof.
  intro H12. revert l3. induction H12 as [extra|r r' l l' Hc Ha H IH]; intros l3 H23.
  - constructor.
  - inversion H23 as [|? r'' ? l'' Hc' Ha' H']; subst.
    constructor; [congruence|auto|auto].
Qed.

Lemma tokensEvolve_app (l extra : list RefreshToken.t) : tokensEvolve l (l ++ extra).
Proof. induction l; simpl; constructor; auto. Qed.

Lemma tokensEvolve_invalidate (t : string) (s : Store) :
  tokensEvolve (refreshTokens s) (refreshTokens (snd (invalidateRefreshToken t s))).
Proof.
  unfold invalidateRefreshToken, refreshTokenRepository_update_isActive; simpl.
  induction (refreshTokens s) as [|r l IH]; simpl; constructor; auto.
  - destruct (RefreshToken.token r =? t); reflexivity.
  - destruct (RefreshToken.token r =? t); [discriminate|trivial].
Qed.

Lemma handle_tokensEvolve (r : Request) (s : Store) :
  tokensEvolve (refreshTokens s) (refreshTokens (handle r s)).
Proof.
  destruct r as [rnd uuid w|now rnd w sig pk|now rnd t0| t0 | i | now tok]; simpl.
  - rewrite generateChallenge_keeps_refreshTokens. apply tokensEvolve_refl.
  - rewrite verifySignature_paths.
    destruct (accepted s w sig pk); [|apply tokensEvolve_refl].
    destruct (find _ (users s)); [|apply tokensEvolve_refl].
    destruct userHasAutoUpdatedColumn; [|apply tokensEvolve_refl].
    destruct (existsb _ (users s)); [|apply tokensEvolve_refl].
    apply tokensEvolve_app.
  - rewrite refreshAccessToken_paths.
    destruct (activeRow s t0) as [r0|]; [|apply tokensEvolve_refl].
    destruct (RefreshToken.expiresAt r0 <? now)%Z; [apply tokensEvolve_refl|].
    cbv zeta. destruct (find _ (users s)).
    + eapply tokensEvolve_trans; [apply (tokensEvolve_invalidate t0)|].
      apply tokensEvolve_app.
    + apply tokensEvolve_invalidate.
  - apply tokensEvolve_invalidate.
  - unfold getCurrentUser, findById, userRepository_findOne; service.
    destruct (find _ (users s)); apply tokensEvolve_refl.
  - rewrite validateToken_paths. apply tokensEvolve_refl.
Qed.

(** X13. No sequence of requests deletes a refresh token row, changes its value,
    owner or expiry, or makes an inactive row active again; new rows are
    added at the end. *)
Theorem refreshTokens_only_evolve (rs : list Request) (s : Store) :
  tokensEvolve (refreshTokens s) (refreshTokens (handleAll rs s)).
Proof.
  unfold handleAll. revert s. induction rs as [|r rs IH]; intro s; simpl.
  - apply tokensEvolve_refl.
  - eapply tokensEvolve_trans; [apply handle_tokensEvolve|apply IH].
Qed.

(** ** The guarded endpoints *)

(** The guard never writes, and it either returns the identity
    [validateToken] returns for a bearer token or throws Unauthorized. *)
Lemma canActivate_cases (now : Z) (h : option AuthorizationHeader) (s : Store) :
  (exists identity token,
      h = Some (Bearer token)
      /\ fst (validateToken now token s) = Returned identity
      /\ canActivate now h s = (Returned identity, s))
  \/ (exists message, canActivate now h s = (Thrown (UnauthorizedException message), s)).
Proof.
  assert (Hv : forall token,
    (exists identity, fst (validateToken now token s) = Returned identity
       /\ try_catch (validateToken now token)
            (fun _ => throw (UnauthorizedException "Invalid or expired token")) s
          = (Returned identity, s))
    \/ try_catch (validateToken now token)
         (fun _ => throw (UnauthorizedException "Invalid or expired token")) s
       = (Thrown (UnauthorizedException "Invalid or expired token"), s)).
  { intro token. unfold try_catch, throw. rewrite validateToken_paths.
    destruct token as [raw|key payload]; [right; reflexivity|].
    destruct ((key =? serverSecret) && negb (expired now payload)
              && negb (typeIsNotAccess payload));
      [left; eexists; split; reflexivity|right; reflexivity]. }
  destruct h as [[token|raw]|]; [|right; eexists; reflexivity|right; eexists; reflexivity].
  destruct token as [raw|key payload].
  - destruct raw as [|c raw]; [right; eexists; reflexivity|].
    destruct (Hv (NotAJwt (String c raw))) as [[i [Hi Hc]]|Hc].
    + left. exists i, (NotAJwt (String c raw)). auto.
    + right. eexists. exact Hc.
  - destruct (Hv (Signed key payload)) as [[i [Hi Hc]]|Hc].
    + left. exists i, (Signed key payload). auto.
    + right. eexists. exact Hc.
Qed.

Lemma throttler_within_limit {A} (k : M A) (s : Store) :
  bind (ThrottlerGuard_canActivate false) (fun _ => k) s = k s.
Proof. reflexivity. Qed.

(** X14. POST /auth/logout.  A request over the rate limit is answered with
    the ThrottlerException and invalidates nothing.  Within the limit, when
    the guard lets the request through, the named refresh token is
    invalidated, whoever owns it, and the success message is returned; when
    the guard refuses, the answer is Unauthorized and nothing is
    invalidated. *)
Theorem AuthController_logout_guarded (overLimit : bool) (now : Z)
    (h : option AuthorizationHeader) (t : string) (s : Store) :
  if overLimit
  then AuthController_logout overLimit now h t s
       = (Thrown (JsError "ThrottlerException" "ThrottlerException: Too Many Requests"), s)
  else if isReturned (fst (canActivate now h s))
  then AuthController_logout overLimit now h t s
       = (Returned "Successfully logged out", snd (logout t s))
  else isUnauthorized (fst (AuthController_logout overLimit now h t s)) = true
       /\ snd (AuthController_logout overLimit now h t s) = s.
Proof.
  unfold AuthController_logout.
  destruct overLimit; [reflexivity|]. rewrite throttler_within_limit. unfold bind.
  destruct (canActivate_cases now h s) as [[i [tok [_ [_ Hc]]]]|[m Hc]]; rewrite Hc; simpl.
  - reflexivity.
  - split; reflexivity.
Qed.

(** X15. GET /auth/me never writes to the store.  A request over the rate
    limit is answered with the ThrottlerException; within the limit, when no
    user is returned the error is Unauthorized and no other. *)
Theorem AuthController_getCurrentUser_failure (overLimit : bool) (now : Z)
    (h : option AuthorizationHeader) (s : Store) :
  snd (AuthController_getCurrentUser overLimit now h s) = s
  /\ if overLimit
     then fst (AuthController_getCurrentUser overLimit now h s)
          = Thrown (JsError "ThrottlerException" "ThrottlerException: Too Many Requests")
     else isReturned (fst (AuthController_getCurrentUser overLimit now h s))
          || isUnauthorized (fst (AuthController_getCurrentUser overLimit now h s)) = true.
Proof.
  unfold AuthController_getCurrentUser.
  destruct overLimit; [split; reflexivity|]. rewrite throttler_within_limit. unfold bind.
  destruct (canActivate_cases now h s) as [[i [tok [_ [_ Hc]]]]|[m Hc]]; rewrite Hc.
  - unfold getCurrentUser, findById, userRepository_findOne; service.
    destruct (find _ (users s)); split; reflexivity.
  - split; reflexivity.
Qed.

(** X16. After a login, GET /auth/me with the returned access token answers
    every later request that is within the rate limit with the user of the
    verified wallet (ids being primary keys). *)
Theorem AuthController_getCurrentUser_after_login (now later : Z)
    (rnd w sig pk : string) (s : Store) (pair : TokenPair) :
  NoDup (map User.id (users s)) ->
  fst (verifySignature now rnd w sig pk s) = Returned pair ->
  exists u,
    find (fun u => User.walletAddress u =? w) (users s) = Some u
    /\ AuthController_getCurrentUser false later (Some (Bearer (accessToken pair)))
         (snd (verifySignature now rnd w sig pk s))
       = (Returned {| v_id := User.id u; v_walletAddress := w; v_isActive := true |},
          snd (verifySignature now rnd w sig pk s)).
Proof.
  intros Hnd Hr.
  pose proof (verifySignature_keeps_users now rnd w sig pk s) as Hus.
  rewrite verifySignature_paths in Hr.
  destruct (accepted s w sig pk); [|discriminate Hr].
  destruct (find (fun u => User.walletAddress u =? w) (users s)) as [u|] eqn:Hu;
    [|discriminate Hr].
  destruct userHasAutoUpdatedColumn; [|discriminate Hr].
  destruct (existsb _ (users s)) eqn:He; [|discriminate Hr].
  simpl in Hr. injection Hr as <-. simpl accessToken.
  exists u. split; [reflexivity|].
  set (s1 := snd (verifySignature now rnd w sig pk s)) in *.
  unfold AuthController_getCurrentUser. rewrite throttler_within_limit.
  unfold bind, canActivate, extractTokenFromHeader.
  unfold generateAccessToken at 1, jwtService_sign at 1. unfold try_catch.
  fold (jwtService_sign jwtModuleOptions now
          {| c_sub := User.id u; c_walletAddress := w; c_type := "access" |}).
  fold (generateAccessToken now (User.id u) w).
  destruct (generateAccessToken_has_no_exp now later (User.id u) w s1) as [_ Hv].
  rewrite Hv. simpl ti_userId.
  unfold getCurrentUser, findById, userRepository_findOne, bind, ret. rewrite Hus.
  rewrite find_existsb in He.
  destruct (find (fun v => (User.id v =? User.id u) && User.isActive v) (users s))
    as [v|] eqn:Hv'; [|discriminate He].
  apply find_some in Hv'. destruct Hv' as [Hvin Hvp].
  apply andb_prop in Hvp. destruct Hvp as [Hid Hact]. apply String.eqb_eq in Hid.
  apply find_some in Hu. destruct Hu as [Huin Huw]. apply String.eqb_eq in Huw.
  assert (v = u) by (now apply (NoDup_id_inj (users s))). subst v.
  rewrite Huw, Hact. reflexivity.
Qed.

(** X17. When JWT_SECRET is unset or empty the server signs and verifies with the
    constant written in auth.module.ts: every unexpired token of type
    "access" signed with that constant is accepted, for whatever identity it
    names. *)
Theorem default_secret_accepted (now : Z) (payload : JwtPayload.t) (s : Store) :
  js_not JWT_SECRET = true ->
  typeIsNotAccess payload = false ->
  expired now payload = false ->
  validateToken now (Signed "your-secret-key-change-in-production" payload) s
  = (Returned {| ti_userId := JwtPayload.sub payload;
                 ti_walletAddress := JwtPayload.walletAddress payload |}, s).
Proof.
  intros Hs Ht He. rewrite validateToken_paths.
  assert (Hk : serverSecret = "your-secret-key-change-in-production").
  { unfold serverSecret, jwtModuleOptions, secret, js_or. rewrite Hs. reflexivity. }
  rewrite Hk, String.eqb_refl, Ht, He. reflexivity.
Qed.

(** ** Header text and request validation *)

Lemma substring_whole (s : string) : String.substring 0 (String.length s) s = s.
Proof. induction s as [|c s IH]; simpl; [reflexivity|now rewrite IH]. Qed.

Lemma substring_split (s : string) (n : nat) :
  s = String.substring 0 n s ++ String.substring n (String.length s - n) s.
Proof.
  revert n. induction s as [|c s IH]; intro n.
  - destruct n; reflexivity.
  - destruct n as [|n]; simpl.
    + now rewrite substring_whole.
    + f_equal. apply IH.
Qed.

(** X18. [extractTokenFromHeader] yields a token exactly when the header is
    present and is the text "Bearer " followed by that token; every other
    header, a missing one included, yields undefined. *)
Theorem extractTokenFromHeaderText_bearer (authorization : option string)
    (token : string) :
  extractTokenFromHeaderText authorization = Some token
  <-> authorization = Some ("Bearer " ++ token).
Proof.
  unfold extractTokenFromHeaderText.
  destruct authorization as [authHeader|]; [|split; discriminate]. split.
  - destruct (negb (authHeader =? "") && String.prefix "Bearer " authHeader) eqn:E;
      [|discriminate].
    intro H. injection H as <-. f_equal.
    apply andb_prop in E. destruct E as [_ Hp].
    apply prefix_correct in Hp. simpl String.length in Hp.
    transitivity (String.substring 0 7 authHeader
                  ++ String.substring 7 (String.length authHeader - 7) authHeader);
      [apply substring_split|now rewrite Hp].
  - intro H. injection H as ->. simpl. rewrite Nat.sub_0_r, substring_whole.
    destruct token; reflexivity.
Qed.

(** X19. A value the pattern of [walletAddress] accepts has exactly 56
    characters and passes the other decorators of the field as well. *)
Theorem matchesWalletPattern_length (value : string) :
  matchesWalletPattern value = true ->
  String.length value = 56%nat /\ validWalletAddress value = true.
Proof.
  unfold validWalletAddress, matchesWalletPattern, isNotEmpty, lengthWithin.
  destruct value as [|c rest]; [discriminate|].
  intro H. assert (Hl : String.length rest = 55%nat).
  { destruct c as [[] [] [] [] [] [] [] []]; try discriminate H.
    apply andb_prop in H. destruct H as [H _]. now apply Nat.eqb_eq. }
  split.
  - simpl. now rewrite Hl.
  - rewrite H. simpl String.length. rewrite Hl. reflexivity.
Qed.

End Vaultix.
(** * The properties at work on sample data *)

(** A run of [verifySignature_replay_accepted]: challenge on an empty store,
    the sample account signs the message, and the response is presented
    twice.  With an ORM-maintained column on the entity both calls return
    tokens; without one both die in the ORM; in neither case is the nonce
    cleared or the second call answered with Unauthorized. *)
Lemma verifySignature_replay_accepted_witness :
  let challenged := generateChallenge true nonce1 "u-1" walletG emptyStore in
  let first b :=
    verifySignature sampleKeypair_verify b None utcCalendar 5000 token1
      walletG signature1 walletG (snd challenged) in
  let second b :=
    verifySignature sampleKeypair_verify b None utcCalendar 6000 token2
      walletG signature1 walletG (snd (first b)) in
  fst challenged = Returned {| ch_nonce := nonce1; ch_message := challengeMessage nonce1 |}
  /\ accepted sampleKeypair_verify (snd challenged) walletG signature1 walletG = true
  /\ (isReturned (fst (first true)) = true
      /\ storedNonce (snd (first true)) walletG = Some nonce1
      /\ isUnauthorized (fst (second true)) = false
      /\ isReturned (fst (second true)) = true)
  /\ (fst (first false)
        = Thrown (JsError "UpdateValuesMissingError"
                    "Cannot perform update query because update values are not defined.")
      /\ storedNonce (snd (first false)) walletG = Some nonce1
      /\ isUnauthorized (fst (second false)) = false).
Proof.
  intros challenged first second.
  assert (Ha : accepted sampleKeypair_verify (snd challenged) walletG signature1 walletG
               = true) by reflexivity.
  pose proof (verifySignature_replay_accepted sampleKeypair_verify true None utcCalendar
                5000 6000 token1 token2 walletG signature1 walletG (snd challenged) Ha)
    as [Hn1 [Hu1 Hr1]].
  pose proof (verifySignature_replay_accepted sampleKeypair_verify false None utcCalendar
                5000 6000 token1 token2 walletG signature1 walletG (snd challenged) Ha)
    as [Hn2 [Hu2 _]].
  split; [reflexivity|]. split; [exact Ha|]. split.
  - split; [reflexivity|]. split; [exact Hn1|]. split; [exact Hu1|exact Hr1].
  - split; [reflexivity|]. split; [exact Hn2|exact Hu2].
Defined.

(** C2. An access token minted at clock 0 has no expiry claim and is still
    accepted by [validateToken] sixteen minutes, and a year, later. *)
Theorem accessToken_valid_after_15_minutes :
  let token := generateAccessToken None 0 "u-1" walletG in
  (exists payload,
      token = Signed "your-secret-key-change-in-production" payload
      /\ JwtPayload.exp payload = None)
  /\ fst (validateToken None (16 * 60 * 1000) token emptyStore)
     = Returned {| ti_userId := "u-1"; ti_walletAddress := walletG |}
  /\ fst (validateToken None (365 * 24 * 60 * 60 * 1000) token emptyStore)
     = Returned {| ti_userId := "u-1"; ti_walletAddress := walletG |}.
Proof.
  split; [eexists; split; reflexivity|].
  split; [exact (f_equal fst (proj2 (generateAccessToken_has_no_exp None 0 _ "u-1" walletG emptyStore)))
         |exact (f_equal fst (proj2 (generateAccessToken_has_no_exp None 0 _ "u-1" walletG emptyStore)))].
Qed.

(** A run of [verifySignature_deactivated_user]: the sample account,
    deactivated, holds a pending nonce and presents its own signature over
    the message; the call lets the "User not found" error of [update]
    through, or the ORM's error when the entity has no column of its own to
    update. *)
Lemma verifySignature_deactivated_user_witness :
  accepted sampleKeypair_verify storeDeactivated walletG signature1 walletG = true
  /\ find (fun u => User.walletAddress u =? walletG) (users storeDeactivated)
     = Some {| User.id := "u-1"; User.walletAddress := walletG;
               User.nonce := Some nonce1; User.isActive := false |}
  /\ existsb (fun v => (User.id v =? "u-1") && User.isActive v) (users storeDeactivated)
     = false
  /\ fst (verifySignature sampleKeypair_verify true None utcCalendar 5000 token1
            walletG signature1 walletG storeDeactivated)
     = Thrown (JsError "Error" "User not found")
  /\ (isReturned (fst (verifySignature sampleKeypair_verify false None utcCalendar
                         5000 token1 walletG signature1 walletG storeDeactivated)) = false
      /\ isUnauthorized (fst (verifySignature sampleKeypair_verify false None utcCalendar
                                5000 token1 walletG signature1 walletG storeDeactivated))
         = false).
Proof.
  split; [reflexivity|]. split; [reflexivity|]. split; [reflexivity|].
  split; [reflexivity|].
  apply (verifySignature_deactivated_user sampleKeypair_verify false None utcCalendar
           5000 token1 walletG signature1 walletG storeDeactivated
           {| User.id := "u-1"; User.walletAddress := walletG;
              User.nonce := Some nonce1; User.isActive := false |}
           eq_refl eq_refl eq_refl).
Defined.

(** C5, the claim as stated fails.  The active token expires at clock 1000
    and is presented at clock 1000: [refreshAccessToken] returns new
    tokens. *)
Lemma refreshAccessToken_accepts_at_expiry :
  option_map RefreshToken.expiresAt (activeRow storeWithToken token1) = Some 1000
  /\ fst (refreshAccessToken None utcCalendar 1000 token2 token1 storeWithToken)
     = Returned {| accessToken := generateAccessToken None 1000 "u-1" walletG;
                   refreshToken := token2 |}.
Proof. vm_compute. repeat split. Qed.

(** A run of [validateToken_single_failure]: a token of type "refresh",
    signed with the server secret and without expiry, is refused. *)
Lemma validateToken_single_failure_witness :
  let payload := {| JwtPayload.sub := "u-1"; JwtPayload.walletAddress := walletG;
                    JwtPayload.type := Some "refresh"; JwtPayload.iat := 0;
                    JwtPayload.exp := None |} in
  let token := Signed (serverSecret None) payload in
  JwtPayload.type payload <> Some "access"
  /\ fst (validateToken None 5000 token emptyStore)
     = Thrown (UnauthorizedException "Invalid token").
Proof.
  intros payload token.
  assert (Ht : JwtPayload.type payload <> Some "access") by discriminate.
  split; [exact Ht|].
  exact (proj1 (proj2 (validateToken_single_failure None 5000 token emptyStore))
           (serverSecret None) payload eq_refl Ht).
Defined.

(** A run of [refreshAccessToken_single_use]: the token is used at clock 500,
    other requests follow, and the token is refused at clock 700. *)
Lemma refreshAccessToken_single_use_witness :
  let rs := [ LogoutRequest token2;
              ChallengeRequest nonce2 "u-2" walletG;
              RefreshRequest 600 nonce1 token1 ] in
  isReturned (fst (refreshAccessToken None utcCalendar 500 token2 token1 storeWithToken))
  = true
  /\ (token2 =? token1) = false
  /\ forallb (fun r => negb (drawsToken token1 r)) rs = true
  /\ (spent (snd (refreshAccessToken None utcCalendar 500 token2 token1 storeWithToken))
        token1
      /\ fst (refreshAccessToken None utcCalendar 700 nonce2 token1
                (handleAll sampleKeypair_verify true None utcCalendar rs
                   (snd (refreshAccessToken None utcCalendar 500 token2 token1
                           storeWithToken))))
         = Thrown (UnauthorizedException "Invalid or expired refresh token")).
Proof.
  intro rs.
  split; [reflexivity|]. split; [reflexivity|]. split; [reflexivity|].
  apply (refreshAccessToken_single_use sampleKeypair_verify true None utcCalendar
           500 700 token2 nonce2 token1 rs storeWithToken); reflexivity.
Defined.

(** A run of [generateChallenge_overwrites]: the signature over the first
    message is refused after the second challenge. *)
Lemma generateChallenge_overwrites_witness :
  let s1 := snd (generateChallenge true nonce1 "u-1" walletG emptyStore) in
  let s2 := snd (generateChallenge true nonce2 "u-2" walletG s1) in
  signatureOver sampleKeypair_verify walletG nonce1 signature1 = true
  /\ signatureOver sampleKeypair_verify walletG nonce2 signature1 = false
  /\ (storedNonce s1 walletG = Some nonce1
      /\ storedNonce s2 walletG = Some nonce2
      /\ isUnauthorized
           (fst (verifySignature sampleKeypair_verify true None utcCalendar 5000 token1
                   walletG signature1 walletG s2)) = true).
Proof.
  intros s1 s2.
  split; [reflexivity|]. split; [reflexivity|].
  apply (generateChallenge_overwrites sampleKeypair_verify true None utcCalendar
           nonce1 "u-1" nonce2 "u-2" walletG emptyStore 5000 token1 signature1 walletG).
  reflexivity.
Defined.

(** A run of [verifySignature_failure_keeps_store]: a wrong signature. *)
Lemma verifySignature_failure_keeps_store_witness :
  isReturned (fst (verifySignature sampleKeypair_verify true None utcCalendar 5000 token1
                     walletG "00ff" walletG storePending)) = false
  /\ snd (verifySignature sampleKeypair_verify true None utcCalendar 5000 token1
            walletG "00ff" walletG storePending) = storePending.
Proof.
  split; [reflexivity|].
  apply (verifySignature_failure_keeps_store sampleKeypair_verify true None utcCalendar
           5000 token1 walletG "00ff" walletG storePending).
  reflexivity.
Defined.

(** A run of [getCurrentUser_inactive_or_absent]: the deactivated user. *)
Lemma getCurrentUser_inactive_or_absent_witness :
  (forall u, In u (users storeDeactivated) -> User.id u = "u-1" -> User.isActive u = false)
  /\ getCurrentUser "u-1" storeDeactivated
     = (Thrown (UnauthorizedException "User not found"), storeDeactivated).
Proof.
  assert (H : forall u, In u (users storeDeactivated) -> User.id u = "u-1" ->
                        User.isActive u = false).
  { intros u [<-|[]] _. reflexivity. }
  split; [exact H|].
  apply (getCurrentUser_inactive_or_absent "u-1" storeDeactivated H).
Defined.

(** * Runs of the further properties *)

Lemma spent_token2_storeWithToken : spent storeWithToken token2.
Proof. intros r [<-|[]] H. discriminate H. Defined.

Lemma refreshAccessToken_refusal_keeps_store_witness :
  isUnauthorized (fst (refreshAccessToken None utcCalendar 2000 token2 token1
                         storeWithToken)) = true
  /\ snd (refreshAccessToken None utcCalendar 2000 token2 token1 storeWithToken)
     = storeWithToken.
Proof.
  split; [reflexivity|].
  apply (refreshAccessToken_refusal_keeps_store None utcCalendar 2000 token2 token1
           storeWithToken).
  reflexivity.
Defined.

Lemma generateRefreshToken_usable_witness :
  spent storeWithToken token2
  /\ existsb (fun u => User.id u =? "u-1") (users storeWithToken) = true
  /\ 100 <= utcCalendar 0 7
  /\ (fst (generateRefreshToken utcCalendar 0 token2 "u-1" storeWithToken)
      = Returned token2
      /\ activeRow (snd (generateRefreshToken utcCalendar 0 token2 "u-1" storeWithToken))
           token2
         = Some (issuedRow utcCalendar 0 token2 "u-1")
      /\ isReturned (fst (refreshAccessToken None utcCalendar 100 nonce1 token2
                            (snd (generateRefreshToken utcCalendar 0 token2 "u-1"
                                    storeWithToken))))
         = true).
Proof.
  assert (Hle : 100 <= utcCalendar 0 7) by (vm_compute; discriminate).
  split; [exact spent_token2_storeWithToken|]. split; [reflexivity|]. split; [exact Hle|].
  apply (generateRefreshToken_usable None utcCalendar 0 100 token2 nonce1 "u-1"
           storeWithToken spent_token2_storeWithToken eq_refl Hle).
Defined.

Lemma verifySignature_then_refresh_witness :
  let first := verifySignature sampleKeypair_verify true None utcCalendar 5000 token1
                 walletG signature1 walletG storePending in
  isReturned (fst first) = true
  /\ spent storePending token1
  /\ 6000 <= utcCalendar 5000 7
  /\ (token1 = token1
      /\ isReturned (fst (refreshAccessToken None utcCalendar 6000 token2 token1
                            (snd first))) = true).
Proof.
  intro first.
  assert (Hs : spent storePending token1) by (intros r []).
  assert (Hle : 6000 <= utcCalendar 5000 7) by (vm_compute; discriminate).
  split; [reflexivity|]. split; [exact Hs|]. split; [exact Hle|].
  apply (verifySignature_then_refresh sampleKeypair_verify true None utcCalendar
           5000 6000 token1 token2 walletG signature1 walletG storePending
           {| accessToken := generateAccessToken None 5000 "u-1" walletG;
              refreshToken := token1 |} eq_refl Hs Hle).
Defined.

Lemma refreshAccessToken_then_refresh_witness :
  let first := refreshAccessToken None utcCalendar 500 token2 token1 storeWithToken in
  isReturned (fst first) = true
  /\ spent storeWithToken token2
  /\ 900 <= utcCalendar 500 7
  /\ (token2 = token2
      /\ isReturned (fst (refreshAccessToken None utcCalendar 900 nonce1 token2
                            (snd first))) = true).
Proof.
  intro first.
  assert (Hle : 900 <= utcCalendar 500 7) by (vm_compute; discriminate).
  split; [reflexivity|]. split; [exact spent_token2_storeWithToken|]. split; [exact Hle|].
  apply (refreshAccessToken_then_refresh None utcCalendar 500 900 token2 nonce1 token1
           storeWithToken
           {| accessToken := generateAccessToken None 500 "u-1" walletG;
              refreshToken := token2 |} eq_refl spent_token2_storeWithToken Hle).
Defined.

Lemma refreshAccessToken_keeps_identity_witness :
  let first := refreshAccessToken None utcCalendar 500 token2 token1 storeWithToken in
  isReturned (fst first) = true
  /\ exists r identity,
       activeRow storeWithToken token1 = Some r
       /\ fst (validateToken None 999000
                 (generateAccessToken None 500 "u-1" walletG) (snd first))
          = Returned identity
       /\ ti_userId identity = RefreshToken.userId r.
Proof.
  intro first. split; [reflexivity|].
  apply (refreshAccessToken_keeps_identity None utcCalendar 500 999000 token2 token1
           storeWithToken (snd first)
           {| accessToken := generateAccessToken None 500 "u-1" walletG;
              refreshToken := token2 |} eq_refl).
Defined.

Lemma logout_then_refresh_witness :
  let rs := [ ChallengeRequest nonce2 "u-2" walletG; RefreshRequest 600 nonce1 token1 ] in
  forallb (fun r => negb (drawsToken token1 r)) rs = true
  /\ fst (refreshAccessToken None utcCalendar 700 token2 token1
            (handleAll sampleKeypair_verify true None utcCalendar rs
               (snd (logout token1 storeWithToken))))
     = Thrown (UnauthorizedException "Invalid or expired refresh token").
Proof.
  intro rs. split; [reflexivity|].
  exact (f_equal fst
           (logout_then_refresh sampleKeypair_verify true None utcCalendar
              700 token2 token1 rs storeWithToken eq_refl)).
Defined.

Lemma generateChallenge_then_verify_witness :
  let challenged := generateChallenge true nonce1 "u-1" walletG emptyStore in
  (nonce1 =? "") = false
  /\ isReturned (fst challenged) = true
  /\ sampleKeypair_verify walletG (challengeMessage nonce1) signature1 = Some true
  /\ isReturned (fst (verifySignature sampleKeypair_verify true None utcCalendar
                        5000 token1 walletG signature1 walletG (snd challenged))) = true.
Proof.
  intro challenged.
  split; [reflexivity|]. split; [reflexivity|]. split; [reflexivity|].
  apply (generateChallenge_then_verify sampleKeypair_verify true None utcCalendar 5000
           nonce1 "u-1" token1 walletG signature1 emptyStore
           {| ch_nonce := nonce1; ch_message := challengeMessage nonce1 |}
           eq_refl eq_refl eq_refl eq_refl).
Defined.

Lemma NoDup_ids_storePending : NoDup (map User.id (users storePending)).
Proof. repeat constructor. intros []. Defined.

Lemma generateChallenge_other_wallet_witness :
  NoDup (map User.id (users storePending))
  /\ (walletG =? walletOther) = false
  /\ find (fun u => User.walletAddress u =? walletG)
       (users (snd (generateChallenge true nonce2 "u-2" walletOther storePending)))
     = find (fun u => User.walletAddress u =? walletG) (users storePending).
Proof.
  split; [exact NoDup_ids_storePending|]. split; [reflexivity|].
  apply (generateChallenge_other_wallet true nonce2 "u-2" walletOther walletG storePending
           NoDup_ids_storePending eq_refl).
Defined.

Lemma NoDup_wallets_storePending :
  NoDup (map User.walletAddress (users storePending)).
Proof. repeat constructor. intros []. Defined.

Lemma wallets_stay_unique_witness :
  let rs := [ ChallengeRequest nonce2 "u-2" walletG;
              ChallengeRequest nonce1 "u-3" walletOther ] in
  NoDup (map User.walletAddress (users storePending))
  /\ NoDup (map User.walletAddress
              (users (handleAll sampleKeypair_verify true None utcCalendar rs
                        storePending))).
Proof.
  intro rs. split; [exact NoDup_wallets_storePending|].
  apply (wallets_stay_unique sampleKeypair_verify true None utcCalendar rs storePending
           NoDup_wallets_storePending).
Defined.

Lemma AuthController_getCurrentUser_after_login_witness :
  let first := verifySignature sampleKeypair_verify true None utcCalendar 5000 token1
                 walletG signature1 walletG storePending in
  NoDup (map User.id (users storePending))
  /\ isReturned (fst first) = true
  /\ exists u,
       find (fun u => User.walletAddress u =? walletG) (users storePending) = Some u
       /\ AuthController_getCurrentUser None false 999000
            (Some (Bearer (generateAccessToken None 5000 "u-1" walletG))) (snd first)
          = (Returned {| v_id := User.id u; v_walletAddress := walletG;
                         v_isActive := true |}, snd first).
Proof.
  intro first.
  split; [exact NoDup_ids_storePending|]. split; [reflexivity|].
  apply (AuthController_getCurrentUser_after_login sampleKeypair_verify true None
           utcCalendar 5000 999000 token1 walletG signature1 walletG storePending
           {| accessToken := generateAccessToken None 5000 "u-1" walletG;
              refreshToken := token1 |} NoDup_ids_storePending eq_refl).
Defined.

Lemma default_secret_accepted_witness :
  let forged := {| JwtPayload.sub := "u-1"; JwtPayload.walletAddress := walletG;
                   JwtPayload.type := Some "access"; JwtPayload.iat := 0;
                   JwtPayload.exp := None |} in
  js_not None = true
  /\ typeIsNotAccess forged = false
  /\ expired 5000 forged = false
  /\ validateToken None 5000 (Signed "your-secret-key-change-in-production" forged) emptyStore
     = (Returned {| ti_userId := "u-1"; ti_walletAddress := walletG |}, emptyStore).
Proof.
  intro forged.
  split; [reflexivity|]. split; [reflexivity|]. split; [reflexivity|].
  apply (default_secret_accepted None 5000 forged emptyStore eq_refl eq_refl eq_refl).
Defined.

Lemma matchesWalletPattern_length_witness :
  matchesWalletPattern walletG = true
  /\ String.length walletG = 56%nat /\ validWalletAddress walletG = true.
Proof.
  split; [reflexivity|].
  apply (matchesWalletPattern_length walletG eq_refl).
Defined.
